(** * parse_match_players.py: row normalisation and snapshot reconciliation

    A shallow embedding of [src/parse_match_players.py] (the classes
    [PlayerStats], [MatchData], [MostRecentMatch] and [MatchPlayerParser])
    and the theorems that settle the specification's claims against it.

    Conventions of the embedding.
    - Python objects that [ast.literal_eval] can return are values of
      [pyval]; a [dict] is an association list in insertion order.  Dict
      keys and the cells of identifier columns are [pyatom]s: a [str] or an
      [int], the two shapes an identifier takes in the players literal and
      in a column pandas has read from a file (text, or an integer column
      when every cell is a numeral).  Other hashable keys (floats, tuples,
      bytes) and identifier columns with missing cells are not modelled.
    - Python [float]s are IEEE binary64 values, [spec_float] with
      [prec = 53] and [emax = 1024].
    - A raised exception is the [Err] branch of [result]; [try]/[except] is
      a [match] on it.
    - Library code that reads text ([ast.literal_eval], and [int] and
      [float] applied to a [str]) is the interface [PyRuntime]; the
      theorems hold for every implementation of it.  [cpython] is an
      executable implementation for a part of the grammar, used to run the
      examples.
    - A pandas table is the list of its rows.  The environment is the
      record [World]: the rows [pd.read_csv] yields for the input file,
      the table stored as [most_recent_matches.csv] ([None] when the file
      does not exist), and a trace of the lines printed and the files
      read and written.  Both files are taken to be readable with their
      expected columns, and reading the snapshot returns the table last
      written.
    - A method of [MatchPlayerParser] takes the parser's fields and the
      environment and returns them with its result. *)

From Stdlib Require Import ZArith String Ascii List Bool Lia.
From Stdlib Require Import Floats.SpecFloat.
From stdpp Require Import base option list strings pretty gmap.

Set Warnings "-register-all".
Local Open Scope string_scope.
Local Open Scope Z_scope.
Local Open Scope list_scope.

(** ** Exceptions and results *)

(** The exception classes the program can meet, each with the text
    [str(e)] returns.  [OtherError cls msg] stands for any other subclass
    of [Exception] a library call may raise. *)
Inductive exn : Type :=
| ValueError (msg : string)
| SyntaxError (msg : string)
| TypeError (msg : string)
| AttributeError (msg : string)
| OverflowError (msg : string)
| OtherError (cls msg : string).

(** [str(e)] *)
Definition exn_str (e : exn) : string :=
  match e with
  | ValueError m | SyntaxError m | TypeError m | AttributeError m
  | OverflowError m | OtherError _ m => m
  end.

Inductive result (A : Type) : Type :=
| Ok (a : A)
| Err (e : exn).
Arguments Ok {A} a.
Arguments Err {A} e.

Global Instance result_ret : MRet result := λ A a, Ok a.
Global Instance result_bind : MBind result := λ A B f r,
  match r with
  | Ok a => f a
  | Err e => Err e
  end.

(** ** Python values *)

Inductive pyatom : Type :=
| KStr (s : string)
| KInt (z : Z).

Global Instance pyatom_eq_dec : EqDecision pyatom.
Proof. solve_decision. Defined.

Definition float : Type := spec_float.

Inductive pyval : Type :=
| PyNone
| PyBool (b : bool)
| PyInt (z : Z)
| PyFloat (f : float)
| PyStr (s : string)
| PyList (l : list pyval)
| PyTuple (l : list pyval)
| PyDict (items : list (pyatom * pyval)).

(** [type(v).__name__] *)
Definition type_name (v : pyval) : string :=
  match v with
  | PyNone => "NoneType"
  | PyBool _ => "bool"
  | PyInt _ => "int"
  | PyFloat _ => "float"
  | PyStr _ => "str"
  | PyList _ => "list"
  | PyTuple _ => "tuple"
  | PyDict _ => "dict"
  end.

(** [str(a)] for an identifier cell: the text itself, or the decimal
    numeral of an integer. *)
Definition atom_str (a : pyatom) : string :=
  match a with
  | KStr s => s
  | KInt z => pretty z
  end.

(** ** Dictionaries in insertion order *)

Section dict.
Context {V : Type}.

(** [d.get(k)] *)
Fixpoint dict_lookup (k : pyatom) (d : list (pyatom * V)) : option V :=
  match d with
  | [] => None
  | (k', v) :: rest => if decide (k' = k) then Some v else dict_lookup k rest
  end.

(** [d.get(k, default)] *)
Definition dict_get (k : pyatom) (default : V) (d : list (pyatom * V)) : V :=
  match dict_lookup k d with
  | Some v => v
  | None => default
  end.

(** [d[k] = v]: an existing key keeps its position, a new key goes last. *)
Fixpoint dict_set (k : pyatom) (v : V) (d : list (pyatom * V)) : list (pyatom * V) :=
  match d with
  | [] => [(k, v)]
  | (k', v') :: rest =>
      if decide (k' = k) then (k', v) :: rest else (k', v') :: dict_set k v rest
  end.
End dict.

(** [v.items()], and the attribute lookup [v.get] *)
Definition py_items (v : pyval) : result (list (pyatom * pyval)) :=
  match v with
  | PyDict items => Ok items
  | _ => Err (AttributeError ("'" +:+ type_name v +:+ "' object has no attribute 'items'"))
  end.

Definition py_get_method (v : pyval) : result (list (pyatom * pyval)) :=
  match v with
  | PyDict items => Ok items
  | _ => Err (AttributeError ("'" +:+ type_name v +:+ "' object has no attribute 'get'"))
  end.

(** ** Numbers *)

Definition float_of_Z (z : Z) : float := binary_normalize 53 1024 z 0 false.

Definition float_zero : float := S754_zero false.

(** The integer part of a finite float, rounding towards zero. *)
Definition float_trunc (s : bool) (m : positive) (e : Z) : Z :=
  cond_Zopp s (Z.shiftl (Z.pos m) e).

(** The text-reading library calls. *)
Class PyRuntime : Type := {
  literal_eval : string → result pyval;   (* ast.literal_eval(s) *)
  int_of_str : string → result Z;         (* int(s), s a str *)
  float_of_str : string → result float;   (* float(s), s a str *)
}.

Section coercions.
Context `{PyRuntime}.

(** [int(v)] *)
Definition py_int (v : pyval) : result Z :=
  match v with
  | PyInt z => Ok z
  | PyBool b => Ok (if b then 1 else 0)
  | PyFloat (S754_zero _) => Ok 0
  | PyFloat (S754_finite s m e) => Ok (float_trunc s m e)
  | PyFloat (S754_infinity _) =>
      Err (OverflowError "cannot convert float infinity to integer")
  | PyFloat S754_nan => Err (ValueError "cannot convert float NaN to integer")
  | PyStr s => int_of_str s
  | _ => Err (TypeError
      ("int() argument must be a string, a bytes-like object or a real number, not '"
       +:+ type_name v +:+ "'"))
  end.

(** [float(v)] *)
Definition py_float (v : pyval) : result float :=
  match v with
  | PyFloat f => Ok f
  | PyInt z =>
      match float_of_Z z with
      | S754_infinity _ => Err (OverflowError "int too large to convert to float")
      | f => Ok f
      end
  | PyBool b => Ok (float_of_Z (if b then 1 else 0))
  | PyStr s => float_of_str s
  | _ => Err (TypeError
      ("float() argument must be a string or a real number, not '"
       +:+ type_name v +:+ "'"))
  end.
End coercions.

(** ** The data classes *)

Module PlayerStats.
(** [player_name], [position] and [archetype_id] are stored as read,
    without coercion, so they are [pyval]s. *)
Record t : Type := mk {
  player_id : pyatom;
  player_name : pyval;
  club_id : pyatom;
  position : pyval;
  archetype_id : pyval;
  rating : float;
  goals : Z;
  assists : Z;
  shots : Z;
  passes_made : Z;
  pass_attempts : Z;
  tackles_made : Z;
  tackle_attempts : Z;
  saves : Z;
  seconds_played : Z;
  score : Z;
  wins : Z;
  losses : Z;
  red_cards : Z;
  user_result : Z;
}.
End PlayerStats.

Module MatchData.
Record t : Type := mk {
  match_id : string;
  timestamp : string;
  time_ago : string;
  players_by_club : list (pyatom * list PlayerStats.t);
}.

(** [get_players_for_club] *)
Definition get_players_for_club (self : t) (club_id : pyatom) : list PlayerStats.t :=
  dict_get club_id [] (players_by_club self).

(** [get_all_players]: the club buckets in dict order, concatenated. *)
Definition get_all_players (self : t) : list PlayerStats.t :=
  fold_left (λ all_players players, all_players ++ players)
            (snd <$> players_by_club self) [].
End MatchData.

Module MostRecentMatch.
Record t : Type := mk {
  match_id : string;
  timestamp : string;
  time_ago : string;
  players : list PlayerStats.t;
  is_new : bool;
}.

Definition get_players_for_club (self : t) (club_id : pyatom) : list PlayerStats.t :=
  filter (λ p, PlayerStats.club_id p = club_id) (players self).

Definition get_all_players (self : t) : list PlayerStats.t := players self.
End MostRecentMatch.

(** One row of the input table, as [df.iterrows()] yields it. *)
Module RawRow.
Record t : Type := mk {
  matchId : pyatom;
  timestamp : pyatom;
  timeAgo : pyatom;
  players : pyatom;
}.
End RawRow.

(** ** [_parse_match_row] *)

Section parse_match_row.
Context `{PyRuntime}.

(** The [PlayerStats(...)] call of lines 115-136; the keyword arguments
    are evaluated in the order written, so the first coercion that fails
    is the one raised. *)
Definition new_player (club_id player_id : pyatom) (player_stats : pyval)
  : result PlayerStats.t :=
  stats ← py_get_method player_stats;
  let player_name := dict_get (KStr "playername") (PyStr "Unknown") stats in
  let position := dict_get (KStr "pos") (PyStr "Unknown") stats in
  let archetype_id := dict_get (KStr "archetypeid") (PyStr "0") stats in
  rating ← py_float (dict_get (KStr "rating") (PyInt 0) stats);
  goals ← py_int (dict_get (KStr "goals") (PyInt 0) stats);
  assists ← py_int (dict_get (KStr "assists") (PyInt 0) stats);
  shots ← py_int (dict_get (KStr "shots") (PyInt 0) stats);
  passes_made ← py_int (dict_get (KStr "passesmade") (PyInt 0) stats);
  pass_attempts ← py_int (dict_get (KStr "passattempts") (PyInt 0) stats);
  tackles_made ← py_int (dict_get (KStr "tacklesmade") (PyInt 0) stats);
  tackle_attempts ← py_int (dict_get (KStr "tackleattempts") (PyInt 0) stats);
  saves ← py_int (dict_get (KStr "saves") (PyInt 0) stats);
  seconds_played ← py_int (dict_get (KStr "secondsPlayed") (PyInt 0) stats);
  score ← py_int (dict_get (KStr "SCORE") (PyInt 0) stats);
  wins ← py_int (dict_get (KStr "wins") (PyInt 0) stats);
  losses ← py_int (dict_get (KStr "losses") (PyInt 0) stats);
  red_cards ← py_int (dict_get (KStr "redcards") (PyInt 0) stats);
  user_result ← py_int (dict_get (KStr "userResult") (PyInt 0) stats);
  mret (PlayerStats.mk player_id player_name club_id position archetype_id
          rating goals assists shots passes_made pass_attempts tackles_made
          tackle_attempts saves seconds_played score wins losses red_cards
          user_result).

(** [players_by_club[club_id].append(player)] *)
Definition bucket_append (club_id : pyatom) (player : PlayerStats.t)
    (players_by_club : list (pyatom * list PlayerStats.t))
  : list (pyatom * list PlayerStats.t) :=
  dict_set club_id (dict_get club_id [] players_by_club ++ [player]) players_by_club.

(** The inner loop, lines 114-137. *)
Fixpoint players_loop (club_id : pyatom) (club_players : list (pyatom * pyval))
    (players_by_club : list (pyatom * list PlayerStats.t))
  : result (list (pyatom * list PlayerStats.t)) :=
  match club_players with
  | [] => Ok players_by_club
  | (player_id, player_stats) :: rest =>
      player ← new_player club_id player_id player_stats;
      players_loop club_id rest (bucket_append club_id player players_by_club)
  end.

(** The outer loop, lines 111-137. *)
Fixpoint clubs_loop (players_data : list (pyatom * pyval))
    (players_by_club : list (pyatom * list PlayerStats.t))
  : result (list (pyatom * list PlayerStats.t)) :=
  match players_data with
  | [] => Ok players_by_club
  | (club_id, club_players) :: rest =>
      let players_by_club := dict_set club_id [] players_by_club in
      items ← py_items club_players;
      players_by_club ← players_loop club_id items players_by_club;
      clubs_loop rest players_by_club
  end.

(** Lines 103-106: [ValueError] and [SyntaxError] from the literal parser
    are re-raised as a [ValueError] that quotes them; anything else the
    parser raises passes through. *)
Definition parse_players_field (players_str : string) : result pyval :=
  match literal_eval players_str with
  | Ok players_data => Ok players_data
  | Err (ValueError m) | Err (SyntaxError m) =>
      Err (ValueError ("Could not parse players data: " +:+ m))
  | Err e => Err e
  end.

Definition _parse_match_row (row : RawRow.t) : result MatchData.t :=
  let match_id := atom_str (RawRow.matchId row) in
  let timestamp := atom_str (RawRow.timestamp row) in
  let time_ago := atom_str (RawRow.timeAgo row) in
  let players_str := atom_str (RawRow.players row) in
  players_data ← parse_players_field players_str;
  items ← py_items players_data;
  players_by_club ← clubs_loop items [];
  mret (MatchData.mk match_id timestamp time_ago players_by_club).
End parse_match_row.

(** ** The snapshot table *)

(** One row of [most_recent_matches.csv], with the columns written at
    lines 197-216.  The identifier columns hold [pyatom]s; the other cells
    hold whatever object the column carries. *)
Module Row.
Record t : Type := mk {
  matchId : pyatom;
  timestamp : pyval;
  timeAgo : pyval;
  club_id : pyatom;
  player_id : pyatom;
  player_name : pyval;
  position : pyval;
  rating : pyval;
  goals : pyval;
  assists : pyval;
  shots : pyval;
  passes_made : pyval;
  pass_attempts : pyval;
  tackles_made : pyval;
  tackle_attempts : pyval;
  saves : pyval;
  seconds_played : pyval;
  score : pyval;
}.

(** The columns named in [subset=['matchId', 'player_id']]. *)
Definition key (r : t) : pyatom * pyatom := (matchId r, player_id r).
End Row.

(** The dict literal of lines 197-216. *)
Definition row_of (m : MatchData.t) (player : PlayerStats.t) : Row.t :=
  {| Row.matchId := KStr (MatchData.match_id m);
     Row.timestamp := PyStr (MatchData.timestamp m);
     Row.timeAgo := PyStr (MatchData.time_ago m);
     Row.club_id := PlayerStats.club_id player;
     Row.player_id := PlayerStats.player_id player;
     Row.player_name := PlayerStats.player_name player;
     Row.position := PlayerStats.position player;
     Row.rating := PyFloat (PlayerStats.rating player);
     Row.goals := PyInt (PlayerStats.goals player);
     Row.assists := PyInt (PlayerStats.assists player);
     Row.shots := PyInt (PlayerStats.shots player);
     Row.passes_made := PyInt (PlayerStats.passes_made player);
     Row.pass_attempts := PyInt (PlayerStats.pass_attempts player);
     Row.tackles_made := PyInt (PlayerStats.tackles_made player);
     Row.tackle_attempts := PyInt (PlayerStats.tackle_attempts player);
     Row.saves := PyInt (PlayerStats.saves player);
     Row.seconds_played := PyInt (PlayerStats.seconds_played player);
     Row.score := PyInt (PlayerStats.score player) |}.

(** The three nested loops of lines 193-216: one row per player, matches
    first, then clubs in dict order, then the club's players. *)
Definition current_matches_data (matches : list MatchData.t) : list Row.t :=
  m ← matches;
  bucket ← MatchData.players_by_club m;
  player ← bucket.2;
  [row_of m player].

Global Arguments current_matches_data : simpl never.

(** [df.drop_duplicates(subset=['matchId', 'player_id'], keep='last')]: a
    row stays exactly when no later row has its key; the rows that stay
    keep their order. *)
Fixpoint drop_duplicates_last (df : list Row.t) : list Row.t :=
  match df with
  | [] => []
  | r :: rest =>
      if decide (Row.key r ∈ Row.key <$> rest)
      then drop_duplicates_last rest
      else r :: drop_duplicates_last rest
  end.

(** ** The parser object and its environment *)

Inductive event : Type :=
| Print (text : string)
| ReadInput                       (* pd.read_csv(self.csv_filepath) *)
| ReadSnapshot                    (* pd.read_csv(self.most_recent_filepath) *)
| WriteSnapshot (df : list Row.t) (* df.to_csv(self.most_recent_filepath) *).

Record World : Type := mkWorld {
  input_csv : list RawRow.t;
  most_recent_csv : option (list Row.t);
  trace : list event;
}.

Definition emit (ev : event) (w : World) : World :=
  mkWorld (input_csv w) (most_recent_csv w) (trace w ++ [ev]).

Definition print (text : string) (w : World) : World := emit (Print text) w.

Definition to_csv (df : list Row.t) (w : World) : World :=
  mkWorld (input_csv w) (Some df) (trace w ++ [WriteSnapshot df]).

(** The mutable fields of a [MatchPlayerParser]; the two file paths only
    name the files of [World]. *)
Record MatchPlayerParser : Type := mkParser {
  matches : list MatchData.t;
  most_recent_match : option MostRecentMatch.t;
  new_matches_detected : bool;
}.

Definition __init__ : MatchPlayerParser := mkParser [] None false.

Definition set_matches (ms : list MatchData.t) (self : MatchPlayerParser) :=
  mkParser ms (most_recent_match self) (new_matches_detected self).
Definition set_most_recent_match (r : option MostRecentMatch.t) (self : MatchPlayerParser) :=
  mkParser (matches self) r (new_matches_detected self).
Definition set_new_matches_detected (b : bool) (self : MatchPlayerParser) :=
  mkParser (matches self) (most_recent_match self) b.

Section parser.
Context `{PyRuntime}.

(** The loop of [parse_csv], lines 85-91; [idx] is the row label. *)
Fixpoint parse_rows (idx : nat) (rows : list RawRow.t)
    (self : MatchPlayerParser) (w : World) : MatchPlayerParser * World :=
  match rows with
  | [] => (self, w)
  | row :: rest =>
      match _parse_match_row row with
      | Ok m => parse_rows (S idx) rest (set_matches (matches self ++ [m]) self) w
      | Err e =>
          parse_rows (S idx) rest self
            (print ("Error parsing row " +:+ pretty idx +:+ ": " +:+ exn_str e) w)
      end
  end.

Definition parse_csv (self : MatchPlayerParser) (w : World)
  : list MatchData.t * MatchPlayerParser * World :=
  let df := input_csv w in
  let '(self, w) := parse_rows 0 df self (emit ReadInput w) in
  (matches self, self, w).
End parser.

(** [load_most_recent_matches]: [None] when the file does not exist. *)
Definition load_most_recent_matches (w : World) : option (list Row.t) * World :=
  (most_recent_csv w, emit ReadSnapshot w).

(** [set(most_recent_df['matchId'].astype(str))] *)
Definition existing_match_ids (most_recent_df : list Row.t) : gset string :=
  list_to_set ((λ r, atom_str (Row.matchId r)) <$> most_recent_df).

(** [set([m.match_id for m in self.matches])] *)
Definition current_match_ids (ms : list MatchData.t) : gset string :=
  list_to_set (MatchData.match_id <$> ms).

Definition check_for_new_matches (self : MatchPlayerParser) (w : World)
  : bool * MatchPlayerParser * World :=
  match matches self with
  | [] => (false, self, w)
  | _ :: _ =>
      let '(most_recent_df, w) := load_most_recent_matches w in
      match most_recent_df with
      | None =>
          let w := print "✓ No existing most_recent_matches.csv found. All current matches are new." w in
          (true, set_new_matches_detected true self, w)
      | Some most_recent_df =>
          let new_match_ids :=
            current_match_ids (matches self) ∖ existing_match_ids most_recent_df in
          if decide (new_match_ids = ∅)
          then
            let w := print "✓ No new matches detected" w in
            (false, set_new_matches_detected false self, w)
          else
            let w := print ("✓ Detected " +:+ pretty (size new_match_ids)
                            +:+ " new match(es)") w in
            (true, set_new_matches_detected true self, w)
      end
  end.

Definition update_most_recent_matches (self : MatchPlayerParser) (w : World) : World :=
  match matches self with
  | [] => print "No matches to save" w
  | _ :: _ =>
      let current_matches_data := current_matches_data (matches self) in
      let '(most_recent_df, w) := load_most_recent_matches w in
      match most_recent_df with
      | Some most_recent_df =>
          let updated_df := most_recent_df ++ current_matches_data in
          let updated_df := drop_duplicates_last updated_df in
          let w := to_csv updated_df w in
          print "✓ Updated most_recent_matches.csv with new matches" w
      | None =>
          let w := to_csv current_matches_data w in
          print ("✓ Created most_recent_matches.csv with "
                 +:+ pretty (length (matches self)) +:+ " matches") w
      end
  end.

Definition get_most_recent_match (self : MatchPlayerParser)
  : option MostRecentMatch.t * MatchPlayerParser :=
  match matches self with
  | [] => (None, self)
  | most_recent_raw :: _ =>
      let all_players := MatchData.get_all_players most_recent_raw in
      let r := {| MostRecentMatch.match_id := MatchData.match_id most_recent_raw;
                  MostRecentMatch.timestamp := MatchData.timestamp most_recent_raw;
                  MostRecentMatch.time_ago := MatchData.time_ago most_recent_raw;
                  MostRecentMatch.players := all_players;
                  MostRecentMatch.is_new := new_matches_detected self |} in
      (Some r, set_most_recent_match (Some r) self)
  end.

Section main.
Context `{PyRuntime}.

(** [main], up to the value it returns.  The summary prints and the two
    exports that follow write output only and are left out. *)
Definition main (self : MatchPlayerParser) (w : World)
  : option MostRecentMatch.t * MatchPlayerParser * World :=
  let '(ms, self, w) := parse_csv self w in
  let w := print ("✓ Parsed " +:+ pretty (length ms) +:+ " matches") w in
  let '(has_new_matches, self, w) := check_for_new_matches self w in
  let w := if has_new_matches then update_most_recent_matches self w else w in
  let '(most_recent, self) := get_most_recent_match self in
  (most_recent, self, w).
End main.

(** ** The exports

    [export_matches_to_json] and [export_players_to_csv] build a value,
    hand it to [json.dump] or [DataFrame.to_csv] for a file of their own,
    and print one line.  Each is modelled by the value it hands over and
    the line it prints; how the library renders the value as text is not
    modelled. *)

(** One player object of the document, lines 270-285. *)
Module JsonPlayer.
Record t : Type := mk {
  player_id : pyatom;
  player_name : pyval;
  position : pyval;
  rating : float;
  goals : Z;
  assists : Z;
  shots : Z;
  passes_made : Z;
  pass_attempts : Z;
  tackles_made : Z;
  tackle_attempts : Z;
  saves : Z;
  seconds_played : Z;
  score : Z;
}.
End JsonPlayer.

(** One entry of the document, lines 261-266. *)
Module JsonMatch.
Record t : Type := mk {
  match_id : string;
  timestamp : string;
  time_ago : string;
  clubs : list (pyatom * list JsonPlayer.t);
}.
End JsonMatch.

Definition json_player (p : PlayerStats.t) : JsonPlayer.t :=
  {| JsonPlayer.player_id := PlayerStats.player_id p;
     JsonPlayer.player_name := PlayerStats.player_name p;
     JsonPlayer.position := PlayerStats.position p;
     JsonPlayer.rating := PlayerStats.rating p;
     JsonPlayer.goals := PlayerStats.goals p;
     JsonPlayer.assists := PlayerStats.assists p;
     JsonPlayer.shots := PlayerStats.shots p;
     JsonPlayer.passes_made := PlayerStats.passes_made p;
     JsonPlayer.pass_attempts := PlayerStats.pass_attempts p;
     JsonPlayer.tackles_made := PlayerStats.tackles_made p;
     JsonPlayer.tackle_attempts := PlayerStats.tackle_attempts p;
     JsonPlayer.saves := PlayerStats.saves p;
     JsonPlayer.seconds_played := PlayerStats.seconds_played p;
     JsonPlayer.score := PlayerStats.score p |}.

(** The loop of lines 268-287: [match_data['clubs'][club_id] = [...]] for
    each bucket in dict order. *)
Definition json_clubs (players_by_club : list (pyatom * list PlayerStats.t))
  : list (pyatom * list JsonPlayer.t) :=
  fold_left (λ clubs bucket, dict_set bucket.1 (json_player <$> bucket.2) clubs)
            players_by_club [].

Definition json_match (m : MatchData.t) : JsonMatch.t :=
  {| JsonMatch.match_id := MatchData.match_id m;
     JsonMatch.timestamp := MatchData.timestamp m;
     JsonMatch.time_ago := MatchData.time_ago m;
     JsonMatch.clubs := json_clubs (MatchData.players_by_club m) |}.

(** [export_matches_to_json]: the list given to [json.dump] and the line
    printed. *)
Definition export_matches_to_json (self : MatchPlayerParser) (output_filepath : string)
  : list JsonMatch.t * string :=
  let data := json_match <$> matches self in
  (data,
   "✓ Exported " +:+ pretty (length (matches self)) +:+ " matches to " +:+ output_filepath).

(** One row of the flat export, lines 303-325. *)
Module PlayerRow.
Record t : Type := mk {
  match_id : string;
  timestamp : string;
  club_id : pyatom;
  player_id : pyatom;
  player_name : pyval;
  position : pyval;
  archetype_id : pyval;
  rating : float;
  goals : Z;
  assists : Z;
  shots : Z;
  passes_made : Z;
  pass_attempts : Z;
  tackles_made : Z;
  tackle_attempts : Z;
  saves : Z;
  seconds_played : Z;
  score : Z;
  wins : Z;
  losses : Z;
  red_cards : Z;
}.
End PlayerRow.

Definition player_row (m : MatchData.t) (player : PlayerStats.t) : PlayerRow.t :=
  {| PlayerRow.match_id := MatchData.match_id m;
     PlayerRow.timestamp := MatchData.timestamp m;
     PlayerRow.club_id := PlayerStats.club_id player;
     PlayerRow.player_id := PlayerStats.player_id player;
     PlayerRow.player_name := PlayerStats.player_name player;
     PlayerRow.position := PlayerStats.position player;
     PlayerRow.archetype_id := PlayerStats.archetype_id player;
     PlayerRow.rating := PlayerStats.rating player;
     PlayerRow.goals := PlayerStats.goals player;
     PlayerRow.assists := PlayerStats.assists player;
     PlayerRow.shots := PlayerStats.shots player;
     PlayerRow.passes_made := PlayerStats.passes_made player;
     PlayerRow.pass_attempts := PlayerStats.pass_attempts player;
     PlayerRow.tackles_made := PlayerStats.tackles_made player;
     PlayerRow.tackle_attempts := PlayerStats.tackle_attempts player;
     PlayerRow.saves := PlayerStats.saves player;
     PlayerRow.seconds_played := PlayerStats.seconds_played player;
     PlayerRow.score := PlayerStats.score player;
     PlayerRow.wins := PlayerStats.wins player;
     PlayerRow.losses := PlayerStats.losses player;
     PlayerRow.red_cards := PlayerStats.red_cards player |}.

(** [export_players_to_csv]: the rows given to [DataFrame.to_csv] (the
    list [all_players] of lines 298-325) and the line printed. *)
Definition export_players_to_csv (self : MatchPlayerParser) (output_filepath : string)
  : list PlayerRow.t * string :=
  let all_players :=
    m ← matches self;
    bucket ← MatchData.players_by_club m;
    player ← bucket.2;
    [player_row m player] in
  (all_players,
   "✓ Exported " +:+ pretty (length all_players) +:+ " player records to "
   +:+ output_filepath).

(** ** An executable runtime

    [cpython] implements the three text readers for the part of Python's
    grammar the input uses: dict, list and tuple displays, quoted strings
    with the common escapes, decimal integers and floats, [True], [False]
    and [None].  Text outside that part is answered with
    [OtherError "NotModelled"].  The texts of [SyntaxError] and of the
    parser's [ValueError] change with the interpreter version and quote
    object addresses; here each kind of failure has one fixed text. *)
Module Runtime.

Definition is_space (c : ascii) : bool :=
  let n := nat_of_ascii c in
  ((n =? 32) || ((9 <=? n) && (n <=? 13)) || ((28 <=? n) && (n <=? 31)))%nat.

Definition is_digit (c : ascii) : bool :=
  let n := nat_of_ascii c in ((48 <=? n) && (n <=? 57))%nat.

Definition is_alpha (c : ascii) : bool :=
  let n := nat_of_ascii c in
  (((65 <=? n) && (n <=? 90)) || ((97 <=? n) && (n <=? 122)) || (n =? 95))%nat.

Definition digit_val (c : ascii) : Z := Z.of_nat (nat_of_ascii c) - 48.

Definition dquote : ascii := ascii_of_nat 34.
Definition squote : ascii := ascii_of_nat 39.
Definition backslash : ascii := ascii_of_nat 92.

Fixpoint lstrip (s : string) : string :=
  match s with
  | String c rest => if is_space c then lstrip rest else s
  | EmptyString => s
  end.

Fixpoint rstrip (s : string) : string :=
  match s with
  | String c rest =>
      match rstrip rest with
      | EmptyString => if is_space c then EmptyString else String c EmptyString
      | rest' => String c rest'
      end
  | EmptyString => s
  end.

Definition strip (s : string) : string := rstrip (lstrip s).

(** A run of digits, single underscores allowed between two digits:
    the number read so far, how many digits, and the rest. *)
Fixpoint digits (s : string) (acc cnt : Z) : Z * Z * string :=
  match s with
  | String c rest =>
      if is_digit c then digits rest (acc * 10 + digit_val c) (cnt + 1)
      else if Ascii.eqb c "_" then
        match rest with
        | String d _ => if is_digit d && (0 <? cnt) then digits rest acc cnt
                        else (acc, cnt, s)
        | EmptyString => (acc, cnt, s)
        end
      else (acc, cnt, s)
  | EmptyString => (acc, cnt, s)
  end.

Definition sign (s : string) : bool * string :=
  match s with
  | String "-" rest => (true, rest)
  | String "+" rest => (false, rest)
  | _ => (false, s)
  end.

(** [digits [. digits] [e [sign] digits]]: whether a point or exponent
    was present, the mantissa [m] and the decimal exponent [e10] (the
    number is [m * 10^e10]), and the rest of the text. *)
Definition scan_number (s : string) : option (bool * Z * Z * string) :=
  let '(ip, ic, s1) := digits s 0 0 in
  let '(m, fc, s2, dot) :=
    match s1 with
    | String "." r => let '(fp, fc, s2) := digits r ip 0 in (fp, fc, s2, true)
    | _ => (ip, 0, s1, false)
    end in
  if ic + fc =? 0 then None
  else
    match s2 with
    | String c r =>
        if Ascii.eqb c "e" || Ascii.eqb c "E" then
          let '(neg, r1) := sign r in
          let '(ev, ec, s3) := digits r1 0 0 in
          if ec =? 0 then Some (dot, m, - fc, s2)
          else Some (true, m, (if neg then - ev else ev) - fc, s3)
        else Some (dot, m, - fc, s2)
    | EmptyString => Some (dot, m, - fc, s2)
    end.

(** The binary64 value nearest to [m * 10^e10] (ties to even), [m > 0].
    For a negative exponent the quotient is taken with 65 or more
    significant bits and a sticky last bit, then rounded once. *)
Definition float_of_decimal (neg : bool) (m e10 : Z) : float :=
  if m =? 0 then S754_zero neg
  else if 0 <=? e10 then
    binary_normalize 53 1024 (cond_Zopp neg (m * 10 ^ e10)) 0 neg
  else
    let d := 10 ^ (- e10) in
    let k := Z.log2 d + 65 in
    let n := m * 2 ^ k in
    let q := n / d in
    let sticky := if n mod d =? 0 then 0 else 1 in
    binary_normalize 53 1024 (cond_Zopp neg (2 * q + sticky)) (- (k + 1)) neg.

Definition hex_digit (n : nat) : ascii :=
  ascii_of_nat (if (n <? 10)%nat then 48 + n else 87 + n).

Fixpoint contains (c : ascii) (s : string) : bool :=
  match s with
  | String d rest => Ascii.eqb c d || contains c rest
  | EmptyString => false
  end.

Fixpoint repr_body (q : ascii) (s : string) : string :=
  match s with
  | EmptyString => EmptyString
  | String c rest =>
      let n := nat_of_ascii c in
      let esc (d : ascii) := String backslash (String d (repr_body q rest)) in
      if Ascii.eqb c backslash then esc backslash
      else if Ascii.eqb c q then esc q
      else if (n =? 10)%nat then esc "n"%char
      else if (n =? 13)%nat then esc "r"%char
      else if (n =? 9)%nat then esc "t"%char
      else if ((n <? 32) || (n =? 127))%nat then
        String backslash (String "x" (String (hex_digit (n / 16))
          (String (hex_digit (n mod 16)) (repr_body q rest))))
      else String c (repr_body q rest)
  end.

(** [repr(s)] for a [str] *)
Definition py_repr (s : string) : string :=
  let q := if contains squote s && negb (contains dquote s) then dquote else squote in
  String q (repr_body q s +:+ String q EmptyString).

(** [int(s)] *)
Definition int_of_str (s : string) : result Z :=
  let bad := Err (ValueError ("invalid literal for int() with base 10: " +:+ py_repr s)) in
  let '(neg, body) := sign (strip s) in
  match digits body 0 0 with
  | (z, cnt, EmptyString) => if 0 <? cnt then Ok (cond_Zopp neg z) else bad
  | _ => bad
  end.

Fixpoint lower (s : string) : string :=
  match s with
  | String c rest =>
      let n := nat_of_ascii c in
      String (if ((65 <=? n) && (n <=? 90))%nat then ascii_of_nat (n + 32) else c)
             (lower rest)
  | EmptyString => s
  end.

(** [float(s)] *)
Definition float_of_str (s : string) : result float :=
  let bad := Err (ValueError ("could not convert string to float: " +:+ py_repr s)) in
  let '(neg, body) := sign (strip s) in
  let word := lower body in
  if String.eqb word "inf" || String.eqb word "infinity" then Ok (S754_infinity neg)
  else if String.eqb word "nan" then Ok S754_nan
  else
    match scan_number body with
    | Some (_, m, e10, EmptyString) => Ok (float_of_decimal neg m e10)
    | _ => bad
    end.

Definition syntax_error : exn := SyntaxError "invalid syntax (<unknown>, line 1)".
Definition unterminated : exn :=
  SyntaxError "unterminated string literal (<unknown>, line 1)".
Definition malformed : exn := ValueError "malformed node or string".
Definition not_modelled (what : string) : exn := OtherError "NotModelled" what.

Definition simple_escape (c : ascii) : option ascii :=
  if Ascii.eqb c "n" then Some (ascii_of_nat 10)
  else if Ascii.eqb c "t" then Some (ascii_of_nat 9)
  else if Ascii.eqb c "r" then Some (ascii_of_nat 13)
  else if Ascii.eqb c backslash || Ascii.eqb c squote || Ascii.eqb c dquote then Some c
  else None.

(** The text of a string literal after its opening quote [q]. *)
Fixpoint string_body (q : ascii) (s : string) : result (string * string) :=
  match s with
  | EmptyString => Err unterminated
  | String c rest =>
      if Ascii.eqb c q then Ok (EmptyString, rest)
      else if Ascii.eqb c backslash then
        match rest with
        | String d rest' =>
            match simple_escape d with
            | Some x => '(body, r) ← string_body q rest'; mret (String x body, r)
            | None => Err (not_modelled "escape sequence")
            end
        | EmptyString => Err unterminated
        end
      else if (nat_of_ascii c =? 10)%nat then Err unterminated
      else '(body, r) ← string_body q rest; mret (String c body, r)
  end.

Fixpoint ident (s : string) : string * string :=
  match s with
  | String c rest =>
      if is_alpha c || is_digit c
      then let '(w, r) := ident rest in (String c w, r)
      else (EmptyString, s)
  | EmptyString => (EmptyString, s)
  end.

Definition starts_with_quote (s : string) : bool :=
  match s with
  | String c _ => Ascii.eqb c squote || Ascii.eqb c dquote
  | EmptyString => false
  end.

Definition parse_number (s : string) : result (pyval * string) :=
  match s with
  | String "0" (String c _) =>
      if contains c "xXoObB" then Err (not_modelled "integer literal with a base prefix")
      else
        match scan_number s with
        | Some (false, m, _, r) => if m =? 0 then Ok (PyInt 0, r) else Err syntax_error
        | Some (true, m, e10, r) => Ok (PyFloat (float_of_decimal false m e10), r)
        | None => Err syntax_error
        end
  | _ =>
      match scan_number s with
      | Some (false, m, _, r) => Ok (PyInt m, r)
      | Some (true, m, e10, r) => Ok (PyFloat (float_of_decimal false m e10), r)
      | None => Err syntax_error
      end
  end.

Section sequences.
Variable parse_value : string → result (pyval * string).

(** Elements up to [close]: the elements, whether the last one was
    followed by a comma, and the rest. *)
Fixpoint parse_elems (close : ascii) (n : nat) (s : string) (acc : list pyval)
  : result (list pyval * bool * string) :=
  match n with
  | O => Err syntax_error
  | S n =>
      match lstrip s with
      | EmptyString => Err syntax_error
      | String c rest =>
          if Ascii.eqb c close then Ok (acc, false, rest)
          else
            '(v, r) ← parse_value (String c rest);
            match lstrip r with
            | String d r' =>
                if Ascii.eqb d close then Ok (acc ++ [v], false, r')
                else if Ascii.eqb d "," then
                  match lstrip r' with
                  | String e r'' =>
                      if Ascii.eqb e close then Ok (acc ++ [v], true, r'')
                      else parse_elems close n r' (acc ++ [v])
                  | EmptyString => Err syntax_error
                  end
                else Err syntax_error
            | EmptyString => Err syntax_error
            end
      end
  end.

Definition key_of (v : pyval) : result pyatom :=
  match v with
  | PyStr s => Ok (KStr s)
  | PyInt z => Ok (KInt z)
  | PyList _ | PyDict _ =>
      Err (TypeError ("unhashable type: '" +:+ type_name v +:+ "'"))
  | _ => Err (not_modelled "dict key that is neither str nor int")
  end.

(** [key: value] pairs up to the closing brace; a repeated key keeps
    its first position and takes the last value. *)
Fixpoint parse_items (n : nat) (s : string) (acc : list (pyatom * pyval))
  : result (list (pyatom * pyval) * string) :=
  match n with
  | O => Err syntax_error
  | S n =>
      match lstrip s with
      | EmptyString => Err syntax_error
      | String c rest =>
          if Ascii.eqb c "}" then Ok (acc, rest)
          else
            '(kv, r) ← parse_value (String c rest);
            match lstrip r with
            | String ":" r1 =>
                '(v, r2) ← parse_value r1;
                k ← key_of kv;
                let acc := dict_set k v acc in
                match lstrip r2 with
                | String d r3 =>
                    if Ascii.eqb d "}" then Ok (acc, r3)
                    else if Ascii.eqb d "," then parse_items n r3 acc
                    else Err syntax_error
                | EmptyString => Err syntax_error
                end
            | String "," _ | String "}" _ => Err (not_modelled "set display")
            | _ => Err syntax_error
            end
      end
  end.
End sequences.

Fixpoint parse_value (fuel : nat) (s : string) : result (pyval * string) :=
  match fuel with
  | O => Err (OtherError "RecursionError" "maximum recursion depth exceeded")
  | S fuel =>
      match lstrip s with
      | EmptyString => Err syntax_error
      | String c rest =>
          let n := S (String.length rest) in
          if Ascii.eqb c "{" then
            '(items, r) ← parse_items (parse_value fuel) n rest [];
            mret (PyDict items, r)
          else if Ascii.eqb c "[" then
            '(l, _, r) ← parse_elems (parse_value fuel) "]" n rest [];
            mret (PyList l, r)
          else if Ascii.eqb c "(" then
            '(l, comma, r) ← parse_elems (parse_value fuel) ")" n rest [];
            match l, comma with
            | [v], false => mret (v, r)
            | _, _ => mret (PyTuple l, r)
            end
          else if Ascii.eqb c squote || Ascii.eqb c dquote then
            '(body, r) ← string_body c rest;
            if starts_with_quote (lstrip r)
            then Err (not_modelled "adjacent or triple-quoted string literals")
            else mret (PyStr body, r)
          else if Ascii.eqb c "-" || Ascii.eqb c "+" then
            '(v, r) ← parse_value fuel rest;
            match v with
            | PyInt z => mret (PyInt (if Ascii.eqb c "-" then - z else z), r)
            | PyFloat f => mret (PyFloat (if Ascii.eqb c "-" then SFopp f else f), r)
            | _ => Err malformed
            end
          else if is_digit c || Ascii.eqb c "." then
            '(v, r) ← parse_number (String c rest);
            match r with
            | String d _ =>
                if is_alpha d then
                  (if contains d "jJ" then Err (not_modelled "complex literal")
                   else Err syntax_error)
                else mret (v, r)
            | EmptyString => mret (v, r)
            end
          else if is_alpha c then
            let '(w, r) := ident (String c rest) in
            if String.eqb w "True" then mret (PyBool true, r)
            else if String.eqb w "False" then mret (PyBool false, r)
            else if String.eqb w "None" then mret (PyNone, r)
            else if starts_with_quote r then Err (not_modelled "string prefix")
            else Err malformed
          else Err syntax_error
      end
  end.

(** [ast.literal_eval(s)] *)
Definition literal_eval (s : string) : result pyval :=
  '(v, r) ← parse_value (S (String.length s)) s;
  match lstrip r with
  | EmptyString => Ok v
  | _ => Err syntax_error
  end.
End Runtime.

Definition cpython : PyRuntime :=
  {| literal_eval := Runtime.literal_eval;
     int_of_str := Runtime.int_of_str;
     float_of_str := Runtime.float_of_str |}.

(** * Vocabulary of the statements *)

(** The integer counters: the key read and the field it fills, in the
    order of lines 122-135. *)
Definition int_fields : list (string * (PlayerStats.t → Z)) :=
  [("goals", PlayerStats.goals); ("assists", PlayerStats.assists);
   ("shots", PlayerStats.shots); ("passesmade", PlayerStats.passes_made);
   ("passattempts", PlayerStats.pass_attempts);
   ("tacklesmade", PlayerStats.tackles_made);
   ("tackleattempts", PlayerStats.tackle_attempts);
   ("saves", PlayerStats.saves); ("secondsPlayed", PlayerStats.seconds_played);
   ("SCORE", PlayerStats.score); ("wins", PlayerStats.wins);
   ("losses", PlayerStats.losses); ("redcards", PlayerStats.red_cards);
   ("userResult", PlayerStats.user_result)].

Definition err_of {A : Type} (r : result A) : option exn :=
  match r with
  | Ok _ => None
  | Err e => Some e
  end.

Section vocabulary.
Context `{PyRuntime}.

(** The errors of the numeric coercions of one player object, in the
    order the coercions are made. *)
Definition coercion_errors (stats : list (pyatom * pyval)) : list exn :=
  omap id
    (err_of (py_float (dict_get (KStr "rating") (PyInt 0) stats))
     :: ((λ f, err_of (py_int (dict_get (KStr f.1) (PyInt 0) stats))) <$> int_fields)).

(** The matches [parse_csv] collects from a list of rows, and the lines
    it prints for the rows it skips; [idx] is the label of the first
    row. *)
Definition parsed (rows : list RawRow.t) : list MatchData.t :=
  omap (λ row, match _parse_match_row row with
               | Ok m => Some m
               | Err _ => None
               end) rows.

Fixpoint error_lines (idx : nat) (rows : list RawRow.t) : list event :=
  match rows with
  | [] => []
  | row :: rest =>
      match _parse_match_row row with
      | Ok _ => error_lines (S idx) rest
      | Err e =>
          Print ("Error parsing row " +:+ pretty idx +:+ ": " +:+ exn_str e)
          :: error_lines (S idx) rest
      end
  end.
End vocabulary.

(** Every player of every bucket satisfies [P] with the bucket's key. *)
Definition buckets_all (P : pyatom → PlayerStats.t → Prop)
    (d : list (pyatom * list PlayerStats.t)) : Prop :=
  ∀ c ps p, (c, ps) ∈ d → p ∈ ps → P c p.

(** The part of claim C3 that fails: a stored row whose key comes in again
    is found, replaced, at the position it had. *)
Definition replaced_rows_keep_position (old incoming merged : list Row.t) : Prop :=
  ∀ (i : nat) (r : Row.t),
    old !! i = Some r → Row.key r ∈ Row.key <$> incoming →
    ∃ r', merged !! i = Some r' ∧ Row.key r' = Row.key r.


(** The part of claim C4 that fails: what the caller gets back from the
    detection (the value returned and the fields of the parser) differs
    between a run without a snapshot file and a run whose snapshot file
    shares no match identifier with the current matches. *)
Definition absence_signalled_distinctly : Prop :=
  ∀ (self : MatchPlayerParser) (w_absent w_present : World) (df : list Row.t),
    matches self ≠ [] →
    most_recent_csv w_absent = None →
    most_recent_csv w_present = Some df →
    (∀ m, m ∈ matches self →
          MatchData.match_id m ∉ (λ r, atom_str (Row.matchId r)) <$> df) →
    (check_for_new_matches self w_absent).1 ≠ (check_for_new_matches self w_present).1.

(** ** Vocabulary of the further properties *)

Section vocabulary_rest.
Context `{PyRuntime}.

(** The players built from the entries of one club object, in order; the
    first entry that cannot be built gives the error. *)
Fixpoint players_of (club_id : pyatom) (club_players : list (pyatom * pyval))
  : result (list PlayerStats.t) :=
  match club_players with
  | [] => Ok []
  | (player_id, player_stats) :: rest =>
      player ← new_player club_id player_id player_stats;
      players ← players_of club_id rest;
      mret (player :: players)
  end.

(** A players structure every entry of which can be built: each club is a
    dict, each player a dict, and every numeric coercion succeeds. *)
Definition players_data_ok (players_data : list (pyatom * pyval)) : Prop :=
  Forall (λ club, ∃ club_players, club.2 = PyDict club_players
            ∧ Forall (λ player, ∃ stats, player.2 = PyDict stats
                        ∧ coercion_errors stats = []) club_players)
         players_data.
End vocabulary_rest.

(** The number of (club, player) pairs of a players structure. *)
Definition pair_count (players_data : list (pyatom * pyval)) : nat :=
  sum_list ((λ club, match club.2 with
                     | PyDict club_players => length club_players
                     | _ => 0%nat
                     end) <$> players_data).

(** The (match, player) pairs in the order of the nested loops: matches,
    then clubs in dict order, then the club's players. *)
Definition match_players (ms : list MatchData.t) : list (MatchData.t * PlayerStats.t) :=
  m ← ms;
  bucket ← MatchData.players_by_club m;
  player ← bucket.2;
  [(m, player)].

(** A row of the flat export and a row of the snapshot agree on the
    seventeen columns they share. *)
Definition same_shared_columns (e : PlayerRow.t) (r : Row.t) : Prop :=
  Row.matchId r = KStr (PlayerRow.match_id e)
  ∧ Row.timestamp r = PyStr (PlayerRow.timestamp e)
  ∧ Row.club_id r = PlayerRow.club_id e
  ∧ Row.player_id r = PlayerRow.player_id e
  ∧ Row.player_name r = PlayerRow.player_name e
  ∧ Row.position r = PlayerRow.position e
  ∧ Row.rating r = PyFloat (PlayerRow.rating e)
  ∧ Row.goals r = PyInt (PlayerRow.goals e)
  ∧ Row.assists r = PyInt (PlayerRow.assists e)
  ∧ Row.shots r = PyInt (PlayerRow.shots e)
  ∧ Row.passes_made r = PyInt (PlayerRow.passes_made e)
  ∧ Row.pass_attempts r = PyInt (PlayerRow.pass_attempts e)
  ∧ Row.tackles_made r = PyInt (PlayerRow.tackles_made e)
  ∧ Row.tackle_attempts r = PyInt (PlayerRow.tackle_attempts e)
  ∧ Row.saves r = PyInt (PlayerRow.saves e)
  ∧ Row.seconds_played r = PyInt (PlayerRow.seconds_played e)
  ∧ Row.score r = PyInt (PlayerRow.score e).

(** The tables written to the snapshot file by a list of events. *)
Definition snapshot_writes (evs : list event) : list (list Row.t) :=
  omap (λ ev, match ev with
              | WriteSnapshot df => Some df
              | _ => None
              end) evs.

(** The match identifiers a stored table knows, as
    [check_for_new_matches] reads them. *)
Definition stored_match_ids (df : list Row.t) : list string :=
  (λ r, atom_str (Row.matchId r)) <$> df.

(** The answer of [check_for_new_matches] for the matches [ms] and the
    stored table [file]: there are matches, and either no file or a match
    whose identifier the file does not know. *)
Definition has_new_match (ms : list MatchData.t) (file : option (list Row.t)) : Prop :=
  ms ≠ []
  ∧ match file with
    | None => True
    | Some df => ∃ m, m ∈ ms ∧ MatchData.match_id m ∉ stored_match_ids df
    end.

(** ** Sample inputs *)

(** An input row with a textual match identifier and players field. *)
Definition raw (match_id players : string) : RawRow.t :=
  RawRow.mk (KStr match_id) (KStr "T") (KStr "2h") (KStr players).

(** A player with only a score, as [new_player] builds it from
    [{'SCORE': score}]. *)
Definition scorer (club_id player_id : string) (score : Z) : PlayerStats.t :=
  PlayerStats.mk (KStr player_id) (PyStr "Unknown") (KStr club_id) (PyStr "Unknown")
    (PyStr "0") float_zero 0 0 0 0 0 0 0 0 0 score 0 0 0 0.

(** A stored row for such a player. *)
Definition stored (match_id club_id player_id : string) (score : Z) : Row.t :=
  row_of (MatchData.mk match_id "T" "2h" []) (scorer club_id player_id score).

(** The input lists match [m1] twice, with scores 3 and 5 for player [p1];
    there is no snapshot file. *)
Definition repeated_match_world : World :=
  mkWorld [raw "m1" "{'c1': {'p1': {'SCORE': 3}}}";
           raw "m1" "{'c1': {'p1': {'SCORE': 5}}}"] None [].

(** The snapshot knows [m1] (player [p1], score 3) and [m0]; the input
    brings a new match [m2] and [m1] again, now with score 5. *)
Definition replacing_snapshot : list Row.t :=
  [stored "m1" "c1" "p1" 3; stored "m0" "c0" "p0" 1].

Definition replacing_world : World :=
  mkWorld [raw "m2" "{'c1': {'p2': {'SCORE': 7}}}";
           raw "m1" "{'c1': {'p1': {'SCORE': 5}}}"] (Some replacing_snapshot) [].


(** A stored row as [pd.read_csv] returns it when every match identifier
    of the file is a numeral: the [matchId] column is then an integer
    column. *)
Definition stored_numeric (match_id : Z) (club_id player_id : string) (score : Z) : Row.t :=
  Row.mk (KInt match_id) (PyStr "T") (PyStr "2h") (KStr club_id) (KStr player_id)
    (PyStr "Unknown") (PyStr "Unknown") (PyFloat float_zero)
    (PyInt 0) (PyInt 0) (PyInt 0) (PyInt 0) (PyInt 0) (PyInt 0) (PyInt 0) (PyInt 0)
    (PyInt 0) (PyInt score).

(** The snapshot knows match 42 (player [p1], score 3); the input brings a
    new match 43 and match 42 again, now with score 5. *)
Definition numeric_world : World :=
  mkWorld [RawRow.mk (KInt 43) (KStr "T") (KStr "2h") (KStr "{'c1': {'p2': {'SCORE': 7}}}");
           RawRow.mk (KInt 42) (KStr "T") (KStr "2h") (KStr "{'c1': {'p1': {'SCORE': 5}}}")]
          (Some [stored_numeric 42 "c1" "p1" 3]) [].


(** The example row of the specification and the match it stands for. *)
Definition alice_row : RawRow.t :=
  RawRow.mk (KStr "42") (KStr "T") (KStr "2h")
    (KStr "{'club1': {'p1': {'playername': 'Alice', 'goals': 2}}}").

Definition alice_match : MatchData.t :=
  MatchData.mk "42" "T" "2h"
    [(KStr "club1",
      [PlayerStats.mk (KStr "p1") (PyStr "Alice") (KStr "club1") (PyStr "Unknown")
         (PyStr "0") float_zero 2 0 0 0 0 0 0 0 0 0 0 0 0 0])].

(** A parser that holds the example match. *)
Definition alice_parser : MatchPlayerParser := mkParser [alice_match] None false.


(** * Properties *)

(** ** [drop_duplicates_last] *)

Section drop_duplicates.
Implicit Types (df : list Row.t) (r : Row.t) (k : pyatom * pyatom).

Lemma drop_duplicates_last_keys df k :
  k ∈ Row.key <$> drop_duplicates_last df ↔ k ∈ Row.key <$> df.
Proof.
  induction df as [|r df IH]; simpl; [done|].
  case_decide as Hin; rewrite ?fmap_cons, ?elem_of_cons, IH; [|done].
  split; [by right|]. by intros [->|].
Qed.


Lemma drop_duplicates_last_sublist df : drop_duplicates_last df `sublist_of` df.
Proof.
  induction df as [|r df IH]; simpl; [done|].
  case_decide; [by apply sublist_cons|by apply sublist_skip].
Qed.

Lemma drop_duplicates_last_id df :
  NoDup (Row.key <$> df) → drop_duplicates_last df = df.
Proof.
  induction df as [|r df IH]; simpl; [done|].
  rewrite NoDup_cons. intros [Hnotin Hnd].
  case_decide; [done|]. by rewrite IH.
Qed.


(** Appending [new] to [old] and dropping duplicates: the rows of [old]
    whose key does not come again, then the rows of [new]. *)
Lemma drop_duplicates_last_app old new :
  drop_duplicates_last (old ++ new) =
  filter (λ r, Row.key r ∉ Row.key <$> new) (drop_duplicates_last old)
    ++ drop_duplicates_last new.
Proof.
  induction old as [|r old IH]; simpl; [done|].
  rewrite fmap_app.
  destruct (decide (Row.key r ∈ Row.key <$> old)) as [Hold|Hold].
  - rewrite decide_True by (apply elem_of_app; by left). done.
  - destruct (decide (Row.key r ∈ Row.key <$> new)) as [Hnew|Hnew].
    + rewrite decide_True by (apply elem_of_app; by right).
      rewrite filter_cons_False by (intros Hn; by apply Hn). done.
    + rewrite decide_False by (rewrite elem_of_app; tauto).
      rewrite filter_cons_True by done. simpl. by rewrite IH.
Qed.


End drop_duplicates.

(** ** [update_most_recent_matches]: what is written *)

Section update.
Implicit Types (self : MatchPlayerParser) (w : World) (df : list Row.t).

(** The table stored after the call: unchanged for an empty match list;
    the flattened rows as they are when no file existed; the old table
    followed by the flattened rows, duplicates dropped, otherwise. *)
Lemma update_most_recent_matches_file self w :
  most_recent_csv (update_most_recent_matches self w) =
  match matches self, most_recent_csv w with
  | [], old => old
  | _ :: _, None => Some (current_matches_data (matches self))
  | _ :: _, Some df =>
      Some (drop_duplicates_last (df ++ current_matches_data (matches self)))
  end.
Proof.
  unfold update_most_recent_matches.
  destruct (matches self); [done|].
  simpl. by destruct (most_recent_csv w).
Qed.

Lemma update_existing_file self w df :
  matches self ≠ [] → most_recent_csv w = Some df →
  most_recent_csv (update_most_recent_matches self w) =
  Some (drop_duplicates_last (df ++ current_matches_data (matches self))).
Proof.
  intros Hne Hdf. rewrite update_most_recent_matches_file, Hdf.
  by destruct (matches self).
Qed.

Lemma update_first_run_file self w :
  matches self ≠ [] → most_recent_csv w = None →
  most_recent_csv (update_most_recent_matches self w) =
  Some (current_matches_data (matches self)).
Proof.
  intros Hne Hdf. rewrite update_most_recent_matches_file, Hdf.
  by destruct (matches self).
Qed.




End update.

(** ** Snapshot merge: claims C1, C2, C3 *)

(** C1 (the code departs from the claim on a first run).  The claim: the
    merged snapshot has at most one row per (match identifier, player
    identifier).  With no snapshot file, [update_most_recent_matches]
    writes the flattened rows without dropping duplicates: for the input
    that lists match [m1] twice, the file [main] leaves holds two rows
    with the key [(m1, p1)], one with score 3 and one with score 5.  The
    same run over a snapshot file that exists and is empty writes the one
    row with score 5.  When a snapshot file exists the claim holds, see
    [update_existing_unique] and [update_existing_last_write_wins]. *)
Theorem first_run_writes_duplicate_keys :
  (∃ r3 r5,
    most_recent_csv (@main cpython __init__ repeated_match_world).2 = Some [r3; r5]
    ∧ Row.key r3 = (KStr "m1", KStr "p1") ∧ Row.key r5 = (KStr "m1", KStr "p1")
    ∧ Row.score r3 = PyInt 3 ∧ Row.score r5 = PyInt 5
    ∧ ¬ NoDup (Row.key <$> [r3; r5]))
  ∧ most_recent_csv
      (@main cpython __init__ (mkWorld (input_csv repeated_match_world) (Some []) [])).2
    = Some [stored "m1" "c1" "p1" 5].
Proof.
  split; [|vm_compute; reflexivity].
  exists (stored "m1" "c1" "p1" 3), (stored "m1" "c1" "p1" 5).
  repeat split; try (vm_compute; reflexivity).
  intros Hnd. apply NoDup_cons in Hnd as [Hnotin _].
  apply Hnotin. vm_compute. left.
Qed.

(** C2 (the code departs from the claim on a first run).  The claim:
    merging the same matches twice gives the same snapshot as merging them
    once.  For the input that lists match [m1] twice and no snapshot file,
    the first call writes two rows and the second call, which now finds
    the file, leaves one.  The cause is the one of C1.  When a snapshot
    file exists the claim holds, see [update_existing_idempotent]. *)
Theorem first_run_update_not_idempotent :
  let self := (@parse_csv cpython __init__ repeated_match_world).1.2 in
  let once := update_most_recent_matches self repeated_match_world in
  let twice := update_most_recent_matches self once in
  most_recent_csv once = Some [stored "m1" "c1" "p1" 3; stored "m1" "c1" "p1" 5]
  ∧ most_recent_csv twice = Some [stored "m1" "c1" "p1" 5]
  ∧ most_recent_csv twice ≠ most_recent_csv once.
Proof.
  repeat split; try (vm_compute; reflexivity).
  vm_compute. discriminate.
Qed.

(** The identifier columns are compared as the cells they hold.  A match
    identifier read back as the integer 42 and the text ["42"] of an
    incoming row are different keys for [drop_duplicates], although
    [check_for_new_matches], which compares after [astype(str)], takes
    them for the same match: both rows for player [p1] of match 42 stay
    in the table. *)
Lemma numeric_match_id_is_not_replaced :
  most_recent_csv (@main cpython __init__ numeric_world).2 =
    Some [stored_numeric 42 "c1" "p1" 3; stored "43" "c1" "p2" 7; stored "42" "c1" "p1" 5]
  ∧ atom_str (Row.matchId (stored_numeric 42 "c1" "p1" 3))
    = atom_str (Row.matchId (stored "42" "c1" "p1" 5))
  ∧ Row.player_id (stored_numeric 42 "c1" "p1" 3) = Row.player_id (stored "42" "c1" "p1" 5).
Proof. repeat split; vm_compute; reflexivity. Qed.

(** C3, counterexample.  The stored row for [(m1, p1)] stands first; after
    the merge the first row is the one for [(m0, p0)], and the row for
    [(m1, p1)] stands last, behind the new row for [m2]. *)
Lemma replaced_row_leaves_its_position :
  let self := (@main cpython __init__ replacing_world).1.2 in
  let w := (@main cpython __init__ replacing_world).2 in
  most_recent_csv w =
    Some [stored "m0" "c0" "p0" 1; stored "m2" "c1" "p2" 7; stored "m1" "c1" "p1" 5]
  ∧ ¬ replaced_rows_keep_position replacing_snapshot
        (current_matches_data (matches self))
        [stored "m0" "c0" "p0" 1; stored "m2" "c1" "p2" 7; stored "m1" "c1" "p1" 5].
Proof.
  split; [vm_compute; reflexivity|].
  intros Hkeep.
  destruct (Hkeep 0%nat (stored "m1" "c1" "p1" 3) eq_refl) as (r' & Hr' & Hkey).
  - vm_compute. right. left.
  - injection Hr' as <-. vm_compute in Hkey. discriminate.
Qed.

(** C3, as amended.  When a snapshot file exists and there are matches to
    save, the table written is [kept ++ new]: [kept] are the stored rows
    whose key does not come in, in their stored order; [new] are the
    incoming rows in iteration order (matches, clubs, players).  A stored
    row whose key comes in is dropped from its position; its replacement
    stands among the incoming rows.  Duplicate keys inside either part
    leave their last row. *)
Theorem update_existing_row_order (self : MatchPlayerParser) (w : World) (df : list Row.t) :
  matches self ≠ [] → most_recent_csv w = Some df →
  let incoming := current_matches_data (matches self) in
  let kept := filter (λ r, Row.key r ∉ Row.key <$> incoming) (drop_duplicates_last df) in
  let new := drop_duplicates_last incoming in
  most_recent_csv (update_most_recent_matches self w) = Some (kept ++ new)
  ∧ kept `sublist_of` df
  ∧ new `sublist_of` incoming
  ∧ (∀ k, k ∈ Row.key <$> incoming →
       (k ∉ Row.key <$> kept) ∧ (k ∈ Row.key <$> new))
  ∧ (NoDup (Row.key <$> df) →
     kept = filter (λ r, Row.key r ∉ Row.key <$> incoming) df)
  ∧ (NoDup (Row.key <$> incoming) → new = incoming).
Proof.
  intros Hne Hdf incoming kept new.
  split; [|split; [|split; [|split; [|split]]]].
  - rewrite (update_existing_file _ _ df) by done.
    by rewrite drop_duplicates_last_app.
  - etrans; [apply sublist_filter|apply drop_duplicates_last_sublist].
  - apply drop_duplicates_last_sublist.
  - intros k Hk. split; [|by apply drop_duplicates_last_keys].
    intros (r & -> & Hr)%list_elem_of_fmap.
    by apply list_elem_of_filter in Hr as [Hnotin _].
  - intros Hnd. unfold kept. by rewrite drop_duplicates_last_id.
  - apply drop_duplicates_last_id.
Qed.

Lemma update_existing_row_order_witness :
  let self := (@parse_csv cpython __init__ replacing_world).1.2 in
  let incoming := current_matches_data (matches self) in
  let kept := filter (λ r, Row.key r ∉ Row.key <$> incoming)
                (drop_duplicates_last replacing_snapshot) in
  let new := drop_duplicates_last incoming in
  most_recent_csv (update_most_recent_matches self replacing_world) = Some (kept ++ new)
  ∧ kept `sublist_of` replacing_snapshot
  ∧ new `sublist_of` incoming
  ∧ (∀ k, k ∈ Row.key <$> incoming →
       (k ∉ Row.key <$> kept) ∧ (k ∈ Row.key <$> new))
  ∧ (NoDup (Row.key <$> replacing_snapshot) →
     kept = filter (λ r, Row.key r ∉ Row.key <$> incoming) replacing_snapshot)
  ∧ (NoDup (Row.key <$> incoming) → new = incoming).
Proof.
  apply (update_existing_row_order
           (@parse_csv cpython __init__ replacing_world).1.2
           replacing_world replacing_snapshot).
  - vm_compute. discriminate.
  - reflexivity.
Defined.

(** ** The row normaliser *)

Section dict_facts.
Context {V : Type}.
Implicit Types (d : list (pyatom * V)) (k : pyatom) (v : V).

Lemma dict_set_elem k v d k' v' :
  (k', v') ∈ dict_set k v d → (k', v') ∈ d ∨ (k' = k ∧ v' = v).
Proof.
  induction d as [|[k0 v0] d IH]; simpl.
  - intros [= -> ->]%list_elem_of_singleton. by right.
  - case_decide as Hk; rewrite !elem_of_cons.
    + intros [[= -> ->]|Hin]; [by right|by left; right].
    + intros [Heq|Hin]; [by left; left|].
      destruct (IH Hin) as [?|?]; [by left; right|by right].
Qed.

Lemma dict_lookup_elem k v d : dict_lookup k d = Some v → (k, v) ∈ d.
Proof.
  induction d as [|[k0 v0] d IH]; simpl; [done|].
  case_decide as Hk; [intros [= ->]; subst; by left|].
  intros Hl. right. by apply IH.
Qed.

End dict_facts.

Section normaliser.
Context `{PyRuntime}.
Implicit Types (c k : pyatom) (p : PlayerStats.t)
  (d : list (pyatom * list PlayerStats.t)).

Ltac step_bind :=
  match goal with
  | |- context [match ?r with Ok _ => _ | Err _ => _ end] =>
      destruct r eqn:?; simpl; try discriminate
  end.

(** What a successful [PlayerStats(...)] call returns. *)
Lemma new_player_Ok c k v p :
  new_player c k v = Ok p →
  ∃ stats, v = PyDict stats
    ∧ PlayerStats.player_id p = k ∧ PlayerStats.club_id p = c
    ∧ PlayerStats.player_name p = dict_get (KStr "playername") (PyStr "Unknown") stats
    ∧ PlayerStats.position p = dict_get (KStr "pos") (PyStr "Unknown") stats
    ∧ PlayerStats.archetype_id p = dict_get (KStr "archetypeid") (PyStr "0") stats
    ∧ py_float (dict_get (KStr "rating") (PyInt 0) stats) = Ok (PlayerStats.rating p)
    ∧ Forall (λ f, py_int (dict_get (KStr f.1) (PyInt 0) stats) = Ok (f.2 p)) int_fields.
Proof.
  unfold new_player. destruct v; simpl; try discriminate.
  unfold mbind, result_bind, mret, result_ret.
  repeat step_bind. intros [= <-]. exists items. simpl.
  repeat split; try done. repeat constructor; done.
Qed.

(** A failing call raises the first coercion error, whatever the club
    and the player. *)
Lemma new_player_Err c k stats e :
  new_player c k (PyDict stats) = Err e ↔ head (coercion_errors stats) = Some e.
Proof.
  unfold new_player, coercion_errors. simpl.
  unfold mbind, result_bind, mret, result_ret.
  repeat (step_bind; [|split; congruence]).
  split; discriminate.
Qed.
End normaliser.

Section loops.
Context `{PyRuntime}.
Variable P : pyatom → PlayerStats.t → Prop.
Implicit Types (c k : pyatom) (p : PlayerStats.t)
  (d : list (pyatom * list PlayerStats.t)).

Lemma buckets_all_reset c d : buckets_all P d → buckets_all P (dict_set c [] d).
Proof.
  intros Hd c' ps p [Hin|[-> ->]]%dict_set_elem Hp; [by eapply Hd|].
  by apply elem_of_nil in Hp.
Qed.

Lemma buckets_all_append c p d :
  buckets_all P d → P c p → buckets_all P (bucket_append c p d).
Proof.
  intros Hd Hp c' ps p' [Hin|[-> ->]]%dict_set_elem Hp'; [by eapply Hd|].
  apply elem_of_app in Hp' as [Hold| ->%list_elem_of_singleton]; [|done].
  unfold dict_get in Hold. destruct (dict_lookup c d) as [ps|] eqn:Hl.
  - eapply Hd; [by apply dict_lookup_elem|done].
  - by apply elem_of_nil in Hold.
Qed.

Lemma players_loop_all c items d d' :
  players_loop c items d = Ok d' → buckets_all P d →
  (∀ k stats p, (k, stats) ∈ items → new_player c k stats = Ok p → P c p) →
  buckets_all P d'.
Proof.
  revert d. induction items as [|[k stats] items IH]; simpl; intros d.
  - by intros [= <-].
  - destruct (new_player c k stats) as [p|e] eqn:Hp; simpl; [|done].
    intros Hloop Hd HP. eapply IH; [done| |].
    + apply buckets_all_append; [done|]. eapply HP; [by left|done].
    + intros k' stats' p' Hin. apply HP. by right.
Qed.

Lemma clubs_loop_all data d d' :
  clubs_loop data d = Ok d' → buckets_all P d →
  (∀ c items k stats p, (c, PyDict items) ∈ data → (k, stats) ∈ items →
                         new_player c k stats = Ok p → P c p) →
  buckets_all P d'.
Proof.
  revert d. induction data as [|[c club_players] data IH]; simpl; intros d.
  - by intros [= <-].
  - destruct club_players as [| | | | | | |items]; simpl; try done.
    destruct (players_loop c items (dict_set c [] d)) as [d1|e] eqn:Hl; simpl; [|done].
    intros Hloop Hd HP. eapply IH; [done| |].
    + eapply players_loop_all; [done|by apply buckets_all_reset|].
      intros k stats p Hin. eapply HP; [by left|done].
    + intros c' items' k stats p Hin. apply HP. by right.
Qed.
End loops.

Section parse_match_row_facts.
Context `{PyRuntime}.

Lemma parse_players_field_Ok s v :
  parse_players_field s = Ok v ↔ literal_eval s = Ok v.
Proof.
  unfold parse_players_field.
  destruct (literal_eval s) as [v'|[]]; split; congruence.
Qed.

(** Where a player of a normalised match comes from. *)
Lemma parse_match_row_players row m c ps p :
  _parse_match_row row = Ok m →
  (c, ps) ∈ MatchData.players_by_club m → p ∈ ps →
  ∃ data items stats,
    literal_eval (atom_str (RawRow.players row)) = Ok (PyDict data)
    ∧ (c, PyDict items) ∈ data
    ∧ (PlayerStats.player_id p, PyDict stats) ∈ items
    ∧ new_player c (PlayerStats.player_id p) (PyDict stats) = Ok p.
Proof.
  unfold _parse_match_row.
  destruct (parse_players_field _) as [v|e] eqn:Hparse; simpl; [|done].
  apply parse_players_field_Ok in Hparse.
  destruct v as [| | | | | | |data]; simpl; try done.
  destruct (clubs_loop data []) as [d|e] eqn:Hloop; simpl; [|done].
  intros [= <-]; simpl. intros Hc Hp.
  assert (buckets_all (λ c p, ∃ items stats,
    (c, PyDict items) ∈ data ∧ (PlayerStats.player_id p, PyDict stats) ∈ items
    ∧ new_player c (PlayerStats.player_id p) (PyDict stats) = Ok p) d) as Hall.
  { eapply clubs_loop_all; [done| |].
    - intros ??? Hnil. by apply elem_of_nil in Hnil.
    - intros c' items k stats p' Hin Hk Hnew.
      destruct (new_player_Ok _ _ _ _ Hnew) as (stats' & -> & <- & _).
      by exists items, stats'. }
  destruct (Hall c ps p Hc Hp) as (items & stats & ? & ? & ?).
  by exists data, items, stats.
Qed.

Lemma parse_match_row_header row m :
  _parse_match_row row = Ok m →
  MatchData.match_id m = atom_str (RawRow.matchId row)
  ∧ MatchData.timestamp m = atom_str (RawRow.timestamp row)
  ∧ MatchData.time_ago m = atom_str (RawRow.timeAgo row).
Proof.
  unfold _parse_match_row.
  destruct (parse_players_field _) as [v|e]; simpl; [|done].
  destruct (py_items v) as [items|e]; simpl; [|done].
  destruct (clubs_loop items []) as [d|e]; simpl; [|done].
  by intros [= <-].
Qed.

Lemma parse_rows_spec idx rows self w :
  parse_rows idx rows self w =
  (set_matches (matches self ++ parsed rows) self,
   mkWorld (input_csv w) (most_recent_csv w) (trace w ++ error_lines idx rows)).
Proof.
  revert idx self w. induction rows as [|row rows IH]; intros idx self w; simpl.
  - destruct self, w; unfold set_matches; simpl. by rewrite !app_nil_r.
  - unfold parsed. simpl. fold (parsed rows).
    destruct (_parse_match_row row) as [m|e]; rewrite IH; simpl.
    + unfold set_matches; simpl. by rewrite <- app_assoc.
    + unfold print, emit; simpl. by rewrite <- app_assoc.
Qed.

Lemma parse_csv_spec self w :
  parse_csv self w =
  (matches self ++ parsed (input_csv w),
   set_matches (matches self ++ parsed (input_csv w)) self,
   mkWorld (input_csv w) (most_recent_csv w)
     (trace w ++ ReadInput :: error_lines 0 (input_csv w))).
Proof.
  unfold parse_csv. rewrite parse_rows_spec. simpl. by rewrite <- app_assoc.
Qed.

Lemma parsed_app rows1 rows2 : parsed (rows1 ++ rows2) = parsed rows1 ++ parsed rows2.
Proof. apply omap_app. Qed.

End parse_match_row_facts.

(** ** Row normalisation: claims C5, C6, C7, C9 *)









(** C9.  In a normalised match, a player found in the bucket of club [c]
    has [club_id = c], and its [player_id] is the key under which its
    player object stands in the parsed players field, inside the object of
    club [c]. *)
Theorem players_stay_in_their_club `{PyRuntime}
    (row : RawRow.t) (m : MatchData.t)
    (c : pyatom) (ps : list PlayerStats.t) (p : PlayerStats.t) :
  _parse_match_row row = Ok m →
  (c, ps) ∈ MatchData.players_by_club m → p ∈ ps →
  PlayerStats.club_id p = c
  ∧ ∃ data items stats,
      literal_eval (atom_str (RawRow.players row)) = Ok (PyDict data)
      ∧ (c, PyDict items) ∈ data
      ∧ (PlayerStats.player_id p, PyDict stats) ∈ items
      ∧ new_player c (PlayerStats.player_id p) (PyDict stats) = Ok p.
Proof.
  intros Hrow Hc Hp.
  destruct (parse_match_row_players _ _ _ _ _ Hrow Hc Hp)
    as (data & items & stats & Hdata & Hitems & Hstats & Hnew).
  split; [|by exists data, items, stats].
  by destruct (new_player_Ok _ _ _ _ Hnew) as (_ & _ & _ & ? & _).
Qed.

Lemma players_stay_in_their_club_witness :
  PlayerStats.club_id (scorer "c2" "p2" 4) = KStr "c2"
  ∧ ∃ data items stats,
      @literal_eval cpython "{'c1': {'p1': {'SCORE': 3}}, 'c2': {'p2': {'SCORE': 4}}}"
        = Ok (PyDict data)
      ∧ (KStr "c2", PyDict items) ∈ data
      ∧ (PlayerStats.player_id (scorer "c2" "p2" 4), PyDict stats) ∈ items
      ∧ @new_player cpython (KStr "c2") (PlayerStats.player_id (scorer "c2" "p2" 4))
          (PyDict stats) = Ok (scorer "c2" "p2" 4).
Proof.
  apply (@players_stay_in_their_club cpython
           (raw "m1" "{'c1': {'p1': {'SCORE': 3}}, 'c2': {'p2': {'SCORE': 4}}}")
           (MatchData.mk "m1" "T" "2h"
              [(KStr "c1", [scorer "c1" "p1" 3]); (KStr "c2", [scorer "c2" "p2" 4])])
           (KStr "c2") [scorer "c2" "p2" 4] (scorer "c2" "p2" 4)).
  - vm_compute. reflexivity.
  - simpl. right. left.
  - left.
Defined.

(** ** New-match detection and most-recent selection: claims C4, C8, C10 *)

Section detection.
Implicit Types (self : MatchPlayerParser) (w : World).

(** On a non-empty match list the answer is stored in
    [new_matches_detected], and the snapshot file is read, not changed. *)
Lemma check_for_new_matches_state self w :
  matches self ≠ [] →
  (check_for_new_matches self w).1.2 =
    set_new_matches_detected (check_for_new_matches self w).1.1 self
  ∧ most_recent_csv (check_for_new_matches self w).2 = most_recent_csv w.
Proof.
  unfold check_for_new_matches, load_most_recent_matches.
  destruct (matches self); [done|]. intros _.
  destruct (most_recent_csv w) eqn:Hdf; [case_decide|]; simpl; by rewrite Hdf.
Qed.

Lemma get_all_players_concat (m : MatchData.t) :
  MatchData.get_all_players m = concat (snd <$> MatchData.players_by_club m).
Proof.
  unfold MatchData.get_all_players.
  assert (∀ (l : list (list PlayerStats.t)) acc,
    fold_left (λ all_players players, all_players ++ players) l acc
    = acc ++ concat l) as Hfold; [|by rewrite Hfold].
  induction l as [|x l IH]; intros acc; simpl; [by rewrite app_nil_r|].
  by rewrite IH, app_assoc.
Qed.
End detection.

(** C4, counterexample.  Without a snapshot file, and with a snapshot file
    that only knows match [m0], the detection returns [True] and leaves
    the same parser: there is no second value that tells the two apart. *)
Lemma absent_and_disjoint_snapshot_answer_alike :
  (check_for_new_matches alice_parser (mkWorld [] None [])).1
    = (true, set_new_matches_detected true alice_parser)
  ∧ (check_for_new_matches alice_parser
       (mkWorld [] (Some [stored "m0" "c0" "p0" 1]) [])).1
    = (true, set_new_matches_detected true alice_parser)
  ∧ ¬ absence_signalled_distinctly.
Proof.
  split; [vm_compute; reflexivity|]. split; [vm_compute; reflexivity|].
  intros Hdistinct.
  apply (Hdistinct alice_parser (mkWorld [] None [])
           (mkWorld [] (Some [stored "m0" "c0" "p0" 1]) [])
           [stored "m0" "c0" "p0" 1]); try done.
  intros m ->%list_elem_of_singleton. vm_compute.
  intros [=]%list_elem_of_singleton.
Qed.

(** C4, as amended.  On a non-empty match list the detection returns one
    boolean [b] and stores it in [new_matches_detected].  With a snapshot
    file, [b] tells whether the set of current match identifiers minus
    the set of match identifiers of the snapshot (each rendered with
    [str]) is non-empty.  Without a snapshot file [b] is [True].  The two
    ways of answering [True] give the caller the same value and the same
    parser; only the line printed differs. *)
Theorem check_for_new_matches_answer (self : MatchPlayerParser) (w : World) :
  matches self ≠ [] →
  let '(b, self', w') := check_for_new_matches self w in
  self' = set_new_matches_detected b self
  ∧ most_recent_csv w' = most_recent_csv w
  ∧ match most_recent_csv w with
    | None =>
        b = true
        ∧ trace w' = trace w ++
            [ReadSnapshot;
             Print "✓ No existing most_recent_matches.csv found. All current matches are new."]
    | Some df =>
        let new_match_ids := current_match_ids (matches self) ∖ existing_match_ids df in
        (b = true ↔ new_match_ids ≠ ∅)
        ∧ (∀ id, id ∈ new_match_ids ↔
                 id ∈ MatchData.match_id <$> matches self
                 ∧ id ∉ (λ r, atom_str (Row.matchId r)) <$> df)
        ∧ trace w' = trace w ++
            [ReadSnapshot;
             Print (if b then "✓ Detected " +:+ pretty (size new_match_ids)
                              +:+ " new match(es)"
                    else "✓ No new matches detected")]
    end.
Proof.
  unfold check_for_new_matches, load_most_recent_matches.
  destruct (matches self) as [|m ms] eqn:Hms; [done|].
  intros _. destruct (most_recent_csv w) as [df|] eqn:Hdf.
  - assert (∀ id, id ∈ current_match_ids (m :: ms) ∖ existing_match_ids df ↔
                  id ∈ MatchData.match_id <$> m :: ms
                  ∧ id ∉ (λ r, atom_str (Row.matchId r)) <$> df) as Hids.
    { intros id. unfold current_match_ids, existing_match_ids.
      by rewrite elem_of_difference, !elem_of_list_to_set. }
    case_decide as Hnew; cbv beta iota zeta.
    + split; [done|]. split; [done|].
      split; [by split|]. split; [exact Hids|].
      simpl. by rewrite <- app_assoc.
    + split; [done|]. split; [done|].
      split; [by split|]. split; [exact Hids|].
      simpl. by rewrite <- app_assoc.
  - cbv beta iota zeta. split; [done|]. split; [done|].
    split; [done|]. simpl. by rewrite <- app_assoc.
Qed.

Lemma check_for_new_matches_answer_witness :
  let '(b, self', w') :=
    check_for_new_matches alice_parser (mkWorld [] (Some [stored "m0" "c0" "p0" 1]) []) in
  self' = set_new_matches_detected b alice_parser
  ∧ most_recent_csv w' = Some [stored "m0" "c0" "p0" 1]
  ∧ let new_match_ids :=
      current_match_ids (matches alice_parser)
        ∖ existing_match_ids [stored "m0" "c0" "p0" 1] in
    (b = true ↔ new_match_ids ≠ ∅)
    ∧ (∀ id, id ∈ new_match_ids ↔
             id ∈ MatchData.match_id <$> matches alice_parser
             ∧ id ∉ (λ r, atom_str (Row.matchId r)) <$> [stored "m0" "c0" "p0" 1])
    ∧ trace w' = [] ++
        [ReadSnapshot;
         Print (if b then "✓ Detected " +:+ pretty (size new_match_ids)
                          +:+ " new match(es)"
                else "✓ No new matches detected")].
Proof.
  apply (check_for_new_matches_answer alice_parser
           (mkWorld [] (Some [stored "m0" "c0" "p0" 1]) [])).
  vm_compute. discriminate.
Defined.

(** C8.  On an empty match list the selection returns [None] and leaves
    the parser as it is.  Otherwise it returns, and stores, the first
    match with the players of all its clubs in one list (club buckets in
    dict order) and with [is_new] set to [new_matches_detected]; after
    [check_for_new_matches] that flag is the detection's answer. *)
Theorem most_recent_match_selection (self : MatchPlayerParser) :
  (matches self = [] → get_most_recent_match self = (None, self))
  ∧ (∀ m ms, matches self = m :: ms →
       ∃ r, get_most_recent_match self = (Some r, set_most_recent_match (Some r) self)
         ∧ MostRecentMatch.match_id r = MatchData.match_id m
         ∧ MostRecentMatch.timestamp r = MatchData.timestamp m
         ∧ MostRecentMatch.time_ago r = MatchData.time_ago m
         ∧ MostRecentMatch.players r = concat (snd <$> MatchData.players_by_club m)
         ∧ MostRecentMatch.is_new r = new_matches_detected self)
  ∧ (∀ w, matches self ≠ [] →
       let '(b, self', _) := check_for_new_matches self w in
       ∃ r, (get_most_recent_match self').1 = Some r ∧ MostRecentMatch.is_new r = b).
Proof.
  split; [|split].
  - unfold get_most_recent_match. by intros ->.
  - intros m ms Hms. unfold get_most_recent_match. rewrite Hms.
    eexists. split; [done|]. simpl. by rewrite get_all_players_concat.
  - intros w Hne. destruct (check_for_new_matches_state self w Hne) as [Hstate _].
    destruct (check_for_new_matches self w) as [[b self'] w']. simpl in Hstate.
    subst self'. unfold get_most_recent_match. simpl.
    destruct (matches self); [done|]. by eexists.
Qed.

Lemma most_recent_match_selection_witness :
  get_most_recent_match __init__ = (None, __init__)
  ∧ (∃ r, get_most_recent_match alice_parser
            = (Some r, set_most_recent_match (Some r) alice_parser)
       ∧ MostRecentMatch.match_id r = MatchData.match_id alice_match
       ∧ MostRecentMatch.timestamp r = MatchData.timestamp alice_match
       ∧ MostRecentMatch.time_ago r = MatchData.time_ago alice_match
       ∧ MostRecentMatch.players r = concat (snd <$> MatchData.players_by_club alice_match)
       ∧ MostRecentMatch.is_new r = new_matches_detected alice_parser)
  ∧ (let '(b, self', _) := check_for_new_matches alice_parser (mkWorld [] None []) in
     ∃ r, (get_most_recent_match self').1 = Some r ∧ MostRecentMatch.is_new r = b).
Proof.
  split; [|split].
  - apply (proj1 (most_recent_match_selection __init__)). reflexivity.
  - apply (proj1 (proj2 (most_recent_match_selection alice_parser)) alice_match []).
    reflexivity.
  - apply (proj2 (proj2 (most_recent_match_selection alice_parser)) (mkWorld [] None [])).
    vm_compute. discriminate.
Defined.

(** C10.  On an empty match list the detection returns [False] at once:
    the parser and the environment come back as they were, so the
    snapshot file was not read (no [ReadSnapshot] is added to the trace),
    nothing was printed and [new_matches_detected] was not set, whether
    or not a snapshot file exists.  Hence a whole run of [main] that
    normalises no match reads the input, prints the skipped rows and the
    count, and nothing else: it returns [None], leaves the flag [False]
    and never touches the snapshot file. *)
Theorem check_for_new_matches_empty :
  (∀ (self : MatchPlayerParser) (w : World),
     matches self = [] → check_for_new_matches self w = (false, self, w))
  ∧ (∀ (R : PyRuntime) (w : World),
       parsed (input_csv w) = [] →
       main __init__ w =
       (None, __init__,
        mkWorld (input_csv w) (most_recent_csv w)
          (trace w ++ ReadInput :: error_lines 0 (input_csv w)
                   ++ [Print "✓ Parsed 0 matches"]))).
Proof.
  split.
  - intros self w. unfold check_for_new_matches. by intros ->.
  - intros R w Hnone. unfold main. rewrite parse_csv_spec, Hnone. simpl.
    unfold print, emit. simpl. by rewrite <- app_assoc.
Qed.

Lemma check_for_new_matches_empty_witness :
  check_for_new_matches __init__ (mkWorld [] None []) = (false, __init__, mkWorld [] None [])
  ∧ @main cpython __init__ (mkWorld [raw "m2" "{'c1': "] None []) =
    (None, __init__,
     mkWorld [raw "m2" "{'c1': "] None
       ([] ++ ReadInput :: @error_lines cpython 0 [raw "m2" "{'c1': "]
           ++ [Print "✓ Parsed 0 matches"])).
Proof.
  split.
  - apply (proj1 check_for_new_matches_empty __init__ (mkWorld [] None [])).
    reflexivity.
  - apply (proj2 check_for_new_matches_empty cpython (mkWorld [raw "m2" "{'c1': "] None [])).
    vm_compute. reflexivity.
Defined.


(** * Further properties *)

(** ** Dictionaries *)

Section dict_more.
Context {V : Type}.
Implicit Types (d : list (pyatom * V)) (k : pyatom) (v : V).

Lemma dict_lookup_None k d : dict_lookup k d = None ↔ k ∉ d.*1.
Proof.
  induction d as [|[k0 v0] d IH]; simpl.
  - split; [intros _; apply not_elem_of_nil|done].
  - rewrite not_elem_of_cons. case_decide as Hk.
    + split; [done|]. intros [Hne _]. by subst.
    + rewrite IH. split; [by split|by intros [_ ?]].
Qed.

Lemma dict_lookup_set_eq k v d : dict_lookup k (dict_set k v d) = Some v.
Proof.
  induction d as [|[k0 v0] d IH]; simpl.
  - by rewrite decide_True.
  - case_decide as Hk; simpl; [by rewrite decide_True|by rewrite decide_False].
Qed.

Lemma dict_lookup_set_ne k k' v d :
  k ≠ k' → dict_lookup k' (dict_set k v d) = dict_lookup k' d.
Proof.
  intros Hne. induction d as [|[k0 v0] d IH]; simpl.
  - by rewrite decide_False.
  - case_decide as Hk; simpl.
    + subst. by rewrite !decide_False.
    + case_decide; [done|apply IH].
Qed.

Lemma dict_set_set k v v' d : dict_set k v (dict_set k v' d) = dict_set k v d.
Proof.
  induction d as [|[k0 v0] d IH]; simpl.
  - by rewrite decide_True.
  - case_decide as Hk; simpl; [by rewrite decide_True|].
    rewrite decide_False by done. by rewrite IH.
Qed.

Lemma dict_set_fresh k v d : k ∉ d.*1 → dict_set k v d = d ++ [(k, v)].
Proof.
  induction d as [|[k0 v0] d IH]; simpl; [done|].
  rewrite not_elem_of_cons. intros [Hne Hnotin].
  rewrite decide_False by done. by rewrite IH.
Qed.

Lemma dict_set_last k v v' d : k ∉ d.*1 → dict_set k v (d ++ [(k, v')]) = d ++ [(k, v)].
Proof.
  induction d as [|[k0 v0] d IH]; simpl.
  - intros _. by rewrite decide_True.
  - rewrite not_elem_of_cons. intros [Hne Hnotin].
    rewrite decide_False by done. by rewrite IH.
Qed.

Lemma dict_set_keys_in k v d : k ∈ d.*1 → (dict_set k v d).*1 = d.*1.
Proof.
  induction d as [|[k0 v0] d IH]; simpl.
  - by intros ?%elem_of_nil.
  - case_decide as Hk; simpl; [done|].
    intros [?|Hin]%elem_of_cons; [congruence|]. f_equal. by apply IH.
Qed.

Lemma dict_set_keys_NoDup k v d : NoDup d.*1 → NoDup (dict_set k v d).*1.
Proof.
  destruct (decide (k ∈ d.*1)) as [Hin|Hnotin].
  - by rewrite dict_set_keys_in.
  - rewrite dict_set_fresh by done. rewrite fmap_app. simpl. intros Hnd.
    apply NoDup_app. split; [done|]. split; [|apply NoDup_singleton].
    intros x Hx ->%list_elem_of_singleton. done.
Qed.
End dict_more.

Lemma dict_set_same {V : Type} (k : pyatom) (v : V) (d : list (pyatom * V)) :
  dict_lookup k d = Some v → dict_set k v d = d.
Proof.
  induction d as [|[k0 v0] d IH]; simpl; [done|].
  case_decide as Hk; [by intros [= ->]|]. intros Hl. by rewrite IH.
Qed.

Lemma dict_lookup_NoDup {V : Type} (k : pyatom) (v : V) (d : list (pyatom * V)) :
  NoDup d.*1 → (k, v) ∈ d → dict_lookup k d = Some v.
Proof.
  induction d as [|[k0 v0] d IH]; simpl.
  - by intros _ ?%elem_of_nil.
  - rewrite NoDup_cons. intros [Hnotin Hnd] [[= -> ->]|Hin]%elem_of_cons.
    + by rewrite decide_True.
    + rewrite decide_False; [by apply IH|].
      intros ->. apply Hnotin, list_elem_of_fmap. by exists (k, v).
Qed.

(** ** The row normaliser, continued *)

Section normaliser_more.
Context `{PyRuntime}.
Implicit Types (c k : pyatom) (p : PlayerStats.t)
  (d : list (pyatom * list PlayerStats.t)).

Lemma players_loop_spec c items d ps0 :
  dict_lookup c d = Some ps0 →
  players_loop c items d =
  match players_of c items with
  | Ok ps => Ok (dict_set c (ps0 ++ ps) d)
  | Err e => Err e
  end.
Proof.
  revert d ps0. induction items as [|[k stats] items IH]; intros d ps0 Hl; simpl.
  - by rewrite app_nil_r, dict_set_same.
  - destruct (new_player c k stats) as [p|e]; simpl; [|done].
    unfold bucket_append, dict_get. rewrite Hl.
    rewrite (IH _ (ps0 ++ [p])) by apply dict_lookup_set_eq.
    destruct (players_of c items) as [ps|e]; simpl; [|done].
    by rewrite dict_set_set, <- app_assoc.
Qed.

Lemma players_of_length c items ps :
  players_of c items = Ok ps → length ps = length items.
Proof.
  revert ps. induction items as [|[k stats] items IH]; intros ps; simpl.
  - by intros [= <-].
  - destruct (new_player c k stats) as [p|e]; simpl; [|done].
    destruct (players_of c items) as [ps'|e]; simpl; [|done].
    intros [= <-]. simpl. by rewrite (IH ps').
Qed.

(** The buckets a players structure is turned into, when its club keys
    are distinct and not yet in the dict: one bucket per club, appended
    in order, holding the club's players in order. *)
Lemma clubs_loop_spec data d d' :
  NoDup data.*1 → (∀ c, c ∈ data.*1 → c ∉ d.*1) →
  clubs_loop data d = Ok d' →
  ∃ buckets, d' = d ++ buckets
    ∧ Forall2 (λ club bucket, bucket.1 = club.1
                 ∧ ∃ club_players, club.2 = PyDict club_players
                     ∧ players_of club.1 club_players = Ok bucket.2)
              data buckets.
Proof.
  revert d. induction data as [|[c v] data IH]; intros d; simpl.
  - intros _ _ [= <-]. exists []. by rewrite app_nil_r.
  - rewrite NoDup_cons. intros [Hc Hnd] Hfresh.
    destruct v as [| | | | | | |items]; simpl; try done.
    assert (c ∉ d.*1) as Hcd by (apply Hfresh; by left).
    rewrite (players_loop_spec _ _ _ []) by apply dict_lookup_set_eq.
    destruct (players_of c items) as [ps|e] eqn:Hps; simpl; [|done].
    rewrite dict_set_set, dict_set_fresh by done. intros Hloop.
    destruct (IH (d ++ [(c, ps)])) as (buckets & -> & Hall); [done| |done|].
    + intros c' Hc'. rewrite fmap_app, not_elem_of_app. split.
      * apply Hfresh. by right.
      * simpl. intros ->%list_elem_of_singleton. done.
    + exists ((c, ps) :: buckets). split; [by rewrite <- app_assoc|].
      constructor; [|done]. split; [done|]. by exists items.
Qed.

Lemma players_loop_keys_NoDup c items d d' :
  players_loop c items d = Ok d' → NoDup d.*1 → NoDup d'.*1.
Proof.
  revert d. induction items as [|[k stats] items IH]; intros d; simpl.
  - by intros [= <-].
  - destruct (new_player c k stats) as [p|e]; simpl; [|done].
    intros Hloop Hnd. eapply IH; [done|]. by apply dict_set_keys_NoDup.
Qed.

Lemma clubs_loop_keys_NoDup data d d' :
  clubs_loop data d = Ok d' → NoDup d.*1 → NoDup d'.*1.
Proof.
  revert d. induction data as [|[c v] data IH]; intros d; simpl.
  - by intros [= <-].
  - destruct v as [| | | | | | |items]; simpl; try done.
    destruct (players_loop c items (dict_set c [] d)) as [d1|e] eqn:Hl; simpl; [|done].
    intros Hloop Hnd. eapply IH; [done|].
    eapply players_loop_keys_NoDup; [done|]. by apply dict_set_keys_NoDup.
Qed.

(** The club keys of a normalised match are distinct, whatever the
    players structure was. *)
Lemma parse_match_row_NoDup row m :
  _parse_match_row row = Ok m → NoDup (MatchData.players_by_club m).*1.
Proof.
  unfold _parse_match_row.
  destruct (parse_players_field _) as [v|e]; simpl; [|done].
  destruct (py_items v) as [items|e]; simpl; [|done].
  destruct (clubs_loop items []) as [d|e] eqn:Hloop; simpl; [|done].
  intros [= <-]. simpl. eapply clubs_loop_keys_NoDup; [done|constructor].
Qed.

Lemma parse_match_row_club_id row m c ps p :
  _parse_match_row row = Ok m →
  (c, ps) ∈ MatchData.players_by_club m → p ∈ ps → PlayerStats.club_id p = c.
Proof.
  intros Hrow Hc Hp.
  destruct (parse_match_row_players _ _ _ _ _ Hrow Hc Hp)
    as (data & items & stats & _ & _ & _ & Hnew).
  by destruct (new_player_Ok _ _ _ _ Hnew) as (_ & _ & _ & ? & _).
Qed.

Lemma new_player_succeeds c k v :
  (∃ p, new_player c k v = Ok p) ↔ ∃ stats, v = PyDict stats ∧ coercion_errors stats = [].
Proof.
  split.
  - intros [p Hp]. destruct (new_player_Ok _ _ _ _ Hp) as (stats & -> & _).
    exists stats. split; [done|].
    destruct (coercion_errors stats) as [|e l] eqn:He; [done|].
    assert (new_player c k (PyDict stats) = Err e) as Herr
      by (apply new_player_Err; by rewrite He).
    congruence.
  - intros (stats & -> & He).
    destruct (new_player c k (PyDict stats)) as [p|e] eqn:Hp; [by exists p|].
    apply new_player_Err in Hp. by rewrite He in Hp.
Qed.

Lemma players_of_succeeds c items :
  (∃ ps, players_of c items = Ok ps) ↔
  Forall (λ player, ∃ stats, player.2 = PyDict stats ∧ coercion_errors stats = []) items.
Proof.
  induction items as [|[k v] items IH]; simpl.
  - split; [constructor|by exists []].
  - rewrite Forall_cons, <- IH, <- (new_player_succeeds c k v). simpl. split.
    + intros [ps Hps]. destruct (new_player c k v) as [p|e]; simpl in *; [|done].
      destruct (players_of c items) as [ps'|e]; simpl in *; [|done].
      split; [by exists p|by exists ps'].
    + intros [[p ->] [ps' ->]]. simpl. by eexists.
Qed.

Lemma clubs_loop_succeeds data d :
  (∃ d', clubs_loop data d = Ok d') ↔ players_data_ok data.
Proof.
  unfold players_data_ok. revert d.
  induction data as [|[c v] data IH]; intros d; simpl.
  - split; [constructor|by exists d].
  - rewrite Forall_cons. simpl. split.
    + intros [d' Hloop]. destruct v as [| | | | | | |items]; simpl in *; try done.
      rewrite (players_loop_spec _ _ _ []) in Hloop by apply dict_lookup_set_eq.
      destruct (players_of c items) as [ps|e] eqn:Hps; simpl in *; [|done].
      split.
      * exists items. split; [done|]. apply (players_of_succeeds c). by exists ps.
      * eapply IH. by exists d'.
    + intros [(items & -> & Hitems) Hrest]. simpl.
      rewrite (players_loop_spec _ _ _ []) by apply dict_lookup_set_eq.
      apply (players_of_succeeds c) in Hitems as [ps ->]. simpl. by apply IH.
Qed.
End normaliser_more.

(** X1.  In a normalised match the club keys are distinct, so
    [get_players_for_club] returns the bucket of the club asked for, and
    the empty list for a club the match does not have. *)
Theorem club_lookup_returns_the_bucket `{PyRuntime} (row : RawRow.t) (m : MatchData.t) :
  _parse_match_row row = Ok m →
  NoDup (MatchData.players_by_club m).*1
  ∧ (∀ c ps, (c, ps) ∈ MatchData.players_by_club m →
             MatchData.get_players_for_club m c = ps)
  ∧ (∀ c, c ∉ (MatchData.players_by_club m).*1 →
          MatchData.get_players_for_club m c = []).
Proof.
  intros Hrow. pose proof (parse_match_row_NoDup _ _ Hrow) as Hnd.
  split; [done|]. split.
  - intros c ps Hin. unfold MatchData.get_players_for_club, dict_get.
    by rewrite (dict_lookup_NoDup c ps).
  - intros c Hc. unfold MatchData.get_players_for_club, dict_get.
    apply dict_lookup_None in Hc. by rewrite Hc.
Qed.

Lemma club_lookup_returns_the_bucket_witness :
  NoDup (MatchData.players_by_club alice_match).*1
  ∧ (∀ c ps, (c, ps) ∈ MatchData.players_by_club alice_match →
             MatchData.get_players_for_club alice_match c = ps)
  ∧ (∀ c, c ∉ (MatchData.players_by_club alice_match).*1 →
          MatchData.get_players_for_club alice_match c = []).
Proof.
  apply (@club_lookup_returns_the_bucket cpython alice_row alice_match).
  vm_compute. reflexivity.
Defined.

(** X2.  When the club keys of the parsed players structure are distinct
    (as those of a Python dict are), the normalised match carries the
    text of the three header cells, and one bucket per club in the order
    of the structure, each holding the club's players in their order; so
    its number of players is the number of (club, player) pairs. *)
Theorem normalised_match_follows_the_input `{PyRuntime}
    (row : RawRow.t) (m : MatchData.t) (data : list (pyatom * pyval)) :
  _parse_match_row row = Ok m →
  literal_eval (atom_str (RawRow.players row)) = Ok (PyDict data) →
  NoDup data.*1 →
  MatchData.match_id m = atom_str (RawRow.matchId row)
  ∧ MatchData.timestamp m = atom_str (RawRow.timestamp row)
  ∧ MatchData.time_ago m = atom_str (RawRow.timeAgo row)
  ∧ Forall2 (λ club bucket, bucket.1 = club.1
               ∧ ∃ club_players, club.2 = PyDict club_players
                   ∧ players_of club.1 club_players = Ok bucket.2)
            data (MatchData.players_by_club m)
  ∧ length (MatchData.get_all_players m) = pair_count data.
Proof.
  intros Hrow Hdata Hnd.
  destruct (parse_match_row_header _ _ Hrow) as (Hid & Hts & Hta).
  split; [done|]. split; [done|]. split; [done|].
  assert (Forall2 (λ club bucket, bucket.1 = club.1
               ∧ ∃ club_players, club.2 = PyDict club_players
                   ∧ players_of club.1 club_players = Ok bucket.2)
            data (MatchData.players_by_club m)) as Hall.
  { revert Hrow. unfold _parse_match_row.
    apply parse_players_field_Ok in Hdata. rewrite Hdata. simpl.
    destruct (clubs_loop data []) as [d|e] eqn:Hloop; simpl; [|done].
    intros [= <-]. simpl.
    destruct (clubs_loop_spec data [] d Hnd) as (buckets & -> & Hall); [|done|done].
    intros c _. apply not_elem_of_nil. }
  split; [done|].
  rewrite get_all_players_concat. unfold pair_count.
  clear Hrow Hdata Hnd Hid Hts Hta.
  induction Hall as [|[c v] [c' ps] data' buckets (_ & items & Hv & Hps) _ IH]; [done|].
  simpl in Hv, Hps. subst v. rewrite !fmap_cons.
  cbn [concat sum_list sum_list_with snd]. rewrite length_app, IH.
  by rewrite (players_of_length _ _ _ Hps).
Qed.

Lemma normalised_match_follows_the_input_witness :
  MatchData.match_id alice_match = atom_str (RawRow.matchId alice_row)
  ∧ MatchData.timestamp alice_match = atom_str (RawRow.timestamp alice_row)
  ∧ MatchData.time_ago alice_match = atom_str (RawRow.timeAgo alice_row)
  ∧ Forall2 (λ club bucket, bucket.1 = club.1
               ∧ ∃ club_players, club.2 = PyDict club_players
                   ∧ @players_of cpython club.1 club_players = Ok bucket.2)
            [(KStr "club1",
              PyDict [(KStr "p1",
                       PyDict [(KStr "playername", PyStr "Alice");
                               (KStr "goals", PyInt 2)])])]
            (MatchData.players_by_club alice_match)
  ∧ length (MatchData.get_all_players alice_match)
    = pair_count [(KStr "club1",
                   PyDict [(KStr "p1",
                            PyDict [(KStr "playername", PyStr "Alice");
                                    (KStr "goals", PyInt 2)])])].
Proof.
  apply (@normalised_match_follows_the_input cpython alice_row alice_match).
  - vm_compute. reflexivity.
  - vm_compute. reflexivity.
  - apply NoDup_singleton.
Defined.

(** X3.  A row normalises exactly when its players field parses to a dict
    whose values are dicts of dicts, every numeric value of which can be
    coerced; every other row makes [_parse_match_row] raise. *)
Theorem row_normalises_iff `{PyRuntime} (row : RawRow.t) :
  (∃ m, _parse_match_row row = Ok m) ↔
  ∃ data, literal_eval (atom_str (RawRow.players row)) = Ok (PyDict data)
          ∧ players_data_ok data.
Proof.
  unfold _parse_match_row. split.
  - intros [m Hm].
    destruct (parse_players_field _) as [v|e] eqn:Hparse; simpl in Hm; [|done].
    apply parse_players_field_Ok in Hparse.
    destruct v as [| | | | | | |data]; simpl in Hm; try done.
    exists data. split; [done|].
    apply (clubs_loop_succeeds data []).
    destruct (clubs_loop data []) as [d|e]; [by exists d|done].
  - intros (data & Hdata & Hok).
    apply parse_players_field_Ok in Hdata. rewrite Hdata. simpl.
    apply (clubs_loop_succeeds data []) in Hok as [d ->]. simpl. by eexists.
Qed.

(** ** [parse_csv], continued *)

Section parse_csv_more.
Context `{PyRuntime}.

Lemma parsed_cons row rows :
  parsed (row :: rows) =
  match _parse_match_row row with
  | Ok m => m :: parsed rows
  | Err _ => parsed rows
  end.
Proof. unfold parsed. simpl. by destruct (_parse_match_row row). Qed.


Lemma parsed_elem rows m :
  m ∈ parsed rows → ∃ row, row ∈ rows ∧ _parse_match_row row = Ok m.
Proof.
  induction rows as [|row rows IH]; [by intros ?%elem_of_nil|].
  rewrite parsed_cons. destruct (_parse_match_row row) as [m'|e] eqn:Hrow.
  - intros [->|Hin]%elem_of_cons; [exists row; split; [by left|done]|].
    destruct (IH Hin) as (row' & ? & ?). exists row'. split; [by right|done].
  - intros Hin. destruct (IH Hin) as (row' & ? & ?). exists row'. split; [by right|done].
Qed.

End parse_csv_more.


(** X5.  [parse_csv] never empties [self.matches]: calling it again on
    the same parser and input appends the same matches a second time. *)
Theorem parse_csv_again_appends_again `{PyRuntime}
    (self : MatchPlayerParser) (w : World) :
  let '(_, self1, w1) := parse_csv self w in
  let '(ms2, _, _) := parse_csv self1 w1 in
  ms2 = matches self ++ parsed (input_csv w) ++ parsed (input_csv w).
Proof. rewrite !parse_csv_spec. simpl. by rewrite <- app_assoc. Qed.

(** ** Detection and update, continued *)

Section reconcile_more.
Implicit Types (self : MatchPlayerParser) (w : World) (df : list Row.t)
  (ms : list MatchData.t).

Lemma new_match_ids_elem ms df id :
  id ∈ current_match_ids ms ∖ existing_match_ids df ↔
  id ∈ MatchData.match_id <$> ms ∧ id ∉ stored_match_ids df.
Proof.
  unfold current_match_ids, existing_match_ids, stored_match_ids.
  by rewrite elem_of_difference, !elem_of_list_to_set.
Qed.

Lemma new_match_ids_nonempty ms df :
  current_match_ids ms ∖ existing_match_ids df ≠ ∅ ↔
  ∃ m, m ∈ ms ∧ MatchData.match_id m ∉ stored_match_ids df.
Proof.
  split.
  - intros [id Hid]%set_choose_L. apply new_match_ids_elem in Hid as [Hin Hnot].
    apply list_elem_of_fmap in Hin as (m & -> & Hm). by exists m.
  - intros (m & Hm & Hnot) Hempty.
    assert (MatchData.match_id m ∈ current_match_ids ms ∖ existing_match_ids df) as Hin.
    { apply new_match_ids_elem. split; [|done]. apply list_elem_of_fmap. by exists m. }
    rewrite Hempty in Hin. by apply not_elem_of_empty in Hin.
Qed.

(** The value [check_for_new_matches] returns. *)
Lemma check_for_new_matches_result self w :
  (check_for_new_matches self w).1.1 = true ↔
  has_new_match (matches self) (most_recent_csv w).
Proof.
  unfold check_for_new_matches, load_most_recent_matches, has_new_match.
  destruct (matches self) as [|m ms]; simpl; [split; [done|by intros [? _]]|].
  destruct (most_recent_csv w) as [df|]; [|done].
  case_decide as Hnew; simpl.
  - split; [done|]. intros [_ Hex]. by apply new_match_ids_nonempty in Hex.
  - split; [|done]. intros _. split; [done|]. by apply new_match_ids_nonempty.
Qed.

(** What [check_for_new_matches] leaves alone: the matches, the stored
    most recent match, both files; it writes nothing. *)
Lemma check_for_new_matches_frame self w :
  matches (check_for_new_matches self w).1.2 = matches self
  ∧ most_recent_match (check_for_new_matches self w).1.2 = most_recent_match self
  ∧ (matches self ≠ [] →
     new_matches_detected (check_for_new_matches self w).1.2
     = (check_for_new_matches self w).1.1)
  ∧ input_csv (check_for_new_matches self w).2 = input_csv w
  ∧ most_recent_csv (check_for_new_matches self w).2 = most_recent_csv w
  ∧ ∃ evs, trace (check_for_new_matches self w).2 = trace w ++ evs
           ∧ snapshot_writes evs = [].
Proof.
  unfold check_for_new_matches, load_most_recent_matches.
  destruct (matches self) as [|m ms] eqn:Hms; simpl.
  { repeat split; try done. exists []. by rewrite app_nil_r. }
  destruct (most_recent_csv w) as [df|] eqn:Hdf; [case_decide|]; simpl;
    rewrite ?Hms, ?Hdf, <- ?app_assoc; repeat split; try done; by eexists.
Qed.

(** What [update_most_recent_matches] does to the environment: the input
    file is left alone; on an empty match list nothing is written, and
    otherwise the snapshot file is written once and holds that table. *)
Lemma update_most_recent_matches_frame self w :
  input_csv (update_most_recent_matches self w) = input_csv w
  ∧ ∃ evs, trace (update_most_recent_matches self w) = trace w ++ evs
      ∧ match matches self with
        | [] => snapshot_writes evs = []
                ∧ most_recent_csv (update_most_recent_matches self w) = most_recent_csv w
        | _ :: _ => ∃ df, snapshot_writes evs = [df]
                ∧ most_recent_csv (update_most_recent_matches self w) = Some df
        end.
Proof.
  unfold update_most_recent_matches, load_most_recent_matches.
  destruct (matches self) as [|m ms]; simpl.
  { split; [done|]. by eexists. }
  destruct (most_recent_csv w) as [df|]; simpl; rewrite <- ?app_assoc;
    (split; [done|]); eexists; (split; [done|]); by eexists.
Qed.

Lemma update_most_recent_matches_self self self' w :
  matches self = matches self' →
  update_most_recent_matches self w = update_most_recent_matches self' w.
Proof. unfold update_most_recent_matches. by intros ->. Qed.

Lemma current_matches_data_elem ms r :
  r ∈ current_matches_data ms ↔
  ∃ m bucket p, m ∈ ms ∧ bucket ∈ MatchData.players_by_club m ∧ p ∈ bucket.2
                ∧ r = row_of m p.
Proof.
  unfold current_matches_data. rewrite list_elem_of_bind. split.
  - intros (m & (bucket & (p & ->%list_elem_of_singleton & Hp)%list_elem_of_bind
                   & Hb)%list_elem_of_bind & Hm).
    by exists m, bucket, p.
  - intros (m & bucket & p & Hm & Hb & Hp & ->). exists m. split; [|done].
    apply list_elem_of_bind. exists bucket. split; [|done].
    apply list_elem_of_bind. exists p. split; [by left|done].
Qed.



End reconcile_more.


(** X6.  Writing the snapshot loses no key and invents none: when there
    are matches to save, the table written holds exactly the keys of the
    table found (none when the file did not exist) and the keys of the
    incoming rows. *)
Theorem update_keeps_every_key (self : MatchPlayerParser) (w : World) :
  matches self ≠ [] →
  ∃ merged, most_recent_csv (update_most_recent_matches self w) = Some merged
    ∧ ∀ k, k ∈ Row.key <$> merged ↔
           k ∈ Row.key <$> default [] (most_recent_csv w)
           ∨ k ∈ Row.key <$> current_matches_data (matches self).
Proof.
  intros Hne. rewrite update_most_recent_matches_file.
  destruct (matches self) as [|m ms]; [done|].
  destruct (most_recent_csv w) as [df|]; eexists; (split; [done|]); intros k; simpl.
  - by rewrite drop_duplicates_last_keys, fmap_app, elem_of_app.
  - rewrite elem_of_nil. tauto.
Qed.

Lemma update_keeps_every_key_witness :
  ∃ merged,
    most_recent_csv (update_most_recent_matches alice_parser
                       (mkWorld [] (Some replacing_snapshot) [])) = Some merged
    ∧ ∀ k, k ∈ Row.key <$> merged ↔
           k ∈ Row.key <$> default [] (Some replacing_snapshot)
           ∨ k ∈ Row.key <$> current_matches_data (matches alice_parser).
Proof.
  apply (update_keeps_every_key alice_parser (mkWorld [] (Some replacing_snapshot) [])).
  vm_compute. discriminate.
Defined.





(** ** [main], continued *)

Section main_more.
Context `{PyRuntime}.
Implicit Types (self : MatchPlayerParser) (w : World).

Lemma snapshot_writes_app evs1 evs2 :
  snapshot_writes (evs1 ++ evs2) = snapshot_writes evs1 ++ snapshot_writes evs2.
Proof. apply omap_app. Qed.

Lemma snapshot_writes_error_lines idx rows :
  snapshot_writes (error_lines idx rows) = [].
Proof.
  revert idx. induction rows as [|row rows IH]; intros idx; simpl; [done|].
  destruct (_parse_match_row row); simpl; apply IH.
Qed.

(** [main] in terms of its steps. *)
Lemma main_unfold self w :
  main self w =
  let ms := matches self ++ parsed (input_csv w) in
  let w1 := mkWorld (input_csv w) (most_recent_csv w)
              (trace w ++ ReadInput :: error_lines 0 (input_csv w)
               ++ [Print ("✓ Parsed " +:+ pretty (length ms) +:+ " matches")]) in
  let checked := check_for_new_matches (set_matches ms self) w1 in
  ((get_most_recent_match checked.1.2).1,
   (get_most_recent_match checked.1.2).2,
   if checked.1.1 then update_most_recent_matches checked.1.2 checked.2 else checked.2).
Proof.
  unfold main. rewrite parse_csv_spec. cbv zeta.
  match goal with
  | |- context [print ?t ?w0] =>
      replace (print t w0)
        with (mkWorld (input_csv w) (most_recent_csv w)
                (trace w ++ ReadInput :: error_lines 0 (input_csv w) ++ [Print t]))
        by (unfold print, emit; simpl; by rewrite <- app_assoc)
  end.
  destruct (check_for_new_matches _ _) as [[b self2] w2]. simpl.
  by destruct (get_most_recent_match self2).
Qed.
End main_more.

Section main_facts.
Context `{PyRuntime}.
Implicit Types (self : MatchPlayerParser) (w : World).


(** The match a run returns, and the value of its [is_new]. *)
Lemma main_result self w r :
  let ms := matches self ++ parsed (input_csv w) in
  (main self w).1.1 = Some r →
  most_recent_match (main self w).1.2 = Some r
  ∧ (∃ m ms', ms = m :: ms'
       ∧ MostRecentMatch.match_id r = MatchData.match_id m
       ∧ MostRecentMatch.timestamp r = MatchData.timestamp m
       ∧ MostRecentMatch.time_ago r = MatchData.time_ago m
       ∧ MostRecentMatch.players r = MatchData.get_all_players m)
  ∧ (MostRecentMatch.is_new r = true ↔ has_new_match ms (most_recent_csv w)).
Proof.
  intros ms. rewrite main_unfold. cbv zeta. fold ms.
  set (w1 := mkWorld _ _ _).
  destruct (check_for_new_matches_frame (set_matches ms self) w1)
    as (Hms & _ & Hflag & _ & _ & _). simpl in Hms, Hflag.
  pose proof (check_for_new_matches_result (set_matches ms self) w1) as Hres.
  simpl in Hres. simpl. unfold get_most_recent_match. rewrite Hms.
  destruct ms as [|m ms'] eqn:Hmseq; simpl; [done|].
  intros [= <-]. simpl. rewrite Hflag by done.
  split; [done|]. split; [by exists m, ms'|apply Hres].
Qed.

Lemma main_input self w : input_csv (main self w).2 = input_csv w.
Proof.
  rewrite main_unfold. cbv zeta. set (ms := matches self ++ _). set (w1 := mkWorld _ _ _).
  destruct (check_for_new_matches_frame (set_matches ms self) w1)
    as (_ & _ & _ & Hin & _). simpl.
  destruct ((check_for_new_matches (set_matches ms self) w1).1.1); [|done].
  by destruct (update_most_recent_matches_frame
                 (check_for_new_matches (set_matches ms self) w1).1.2
                 (check_for_new_matches (set_matches ms self) w1).2) as [-> _].
Qed.
End main_facts.

Lemma snapshot_writes_parse `{PyRuntime} (rows : list RawRow.t) (t : string) :
  snapshot_writes (ReadInput :: error_lines 0 rows ++ [Print t]) = [].
Proof.
  change (snapshot_writes (error_lines 0 rows ++ [Print t]) = []).
  by rewrite snapshot_writes_app, snapshot_writes_error_lines.
Qed.

(** X9.  A run of [main] leaves the input file alone and writes the
    snapshot file exactly when detection finds a new match: then once,
    and the file holds the table written; otherwise not at all, and the
    file is as it was, also when the rows of known matches carry other
    statistics than the stored ones. *)
Theorem main_writes_the_snapshot_only_for_new_matches `{PyRuntime}
    (self : MatchPlayerParser) (w : World) :
  let ms := matches self ++ parsed (input_csv w) in
  input_csv (main self w).2 = input_csv w
  ∧ ∃ evs, trace (main self w).2 = trace w ++ evs
    ∧ (has_new_match ms (most_recent_csv w) →
       ∃ df, snapshot_writes evs = [df] ∧ most_recent_csv (main self w).2 = Some df)
    ∧ (¬ has_new_match ms (most_recent_csv w) →
       snapshot_writes evs = [] ∧ most_recent_csv (main self w).2 = most_recent_csv w).
Proof.
  intros ms. split; [apply main_input|].
  rewrite main_unfold. cbv zeta. fold ms.
  set (t := "✓ Parsed " +:+ pretty (length ms) +:+ " matches").
  set (w1 := mkWorld _ _ _).
  destruct (check_for_new_matches_frame (set_matches ms self) w1)
    as (Hms & _ & _ & _ & Hfile & evs1 & Htr1 & Hw1).
  pose proof (check_for_new_matches_result (set_matches ms self) w1) as Hres.
  simpl in Hres, Hfile, Htr1, Hms.
  destruct ((check_for_new_matches (set_matches ms self) w1).1.1); simpl.
  - destruct (update_most_recent_matches_frame
                (check_for_new_matches (set_matches ms self) w1).1.2
                (check_for_new_matches (set_matches ms self) w1).2)
      as (_ & evs2 & Htr2 & Hcase).
    rewrite Hms in Hcase.
    exists ((ReadInput :: error_lines 0 (input_csv w) ++ [Print t]) ++ evs1 ++ evs2).
    split; [by rewrite Htr2, Htr1, <- !app_assoc|]. split.
    + intros [Hne _]. destruct ms as [|m ms']; [done|].
      destruct Hcase as (df & Hw2 & Hfile2). exists df. split; [|done].
      by rewrite !snapshot_writes_app, snapshot_writes_parse, Hw1, Hw2.
    + intros Hno. destruct Hno. by apply Hres.
  - exists ((ReadInput :: error_lines 0 (input_csv w) ++ [Print t]) ++ evs1).
    split; [by rewrite Htr1, <- !app_assoc|]. split.
    + intros Hnew. apply Hres in Hnew. done.
    + intros _. split; [|done].
      by rewrite !snapshot_writes_app, snapshot_writes_parse, Hw1.
Qed.

Lemma main_writes_the_snapshot_only_for_new_matches_witness :
  ∃ evs,
    trace (@main cpython __init__
             (mkWorld [raw "m1" "{'c1': {'p1': {'SCORE': 5}}}"]
                      (Some replacing_snapshot) [])).2 = [] ++ evs
    ∧ snapshot_writes evs = []
    ∧ most_recent_csv (@main cpython __init__
                         (mkWorld [raw "m1" "{'c1': {'p1': {'SCORE': 5}}}"]
                                  (Some replacing_snapshot) [])).2
      = Some replacing_snapshot.
Proof.
  destruct (@main_writes_the_snapshot_only_for_new_matches cpython __init__
              (mkWorld [raw "m1" "{'c1': {'p1': {'SCORE': 5}}}"]
                       (Some replacing_snapshot) []))
    as (_ & evs & Htr & _ & Hquiet).
  exists evs. split; [exact Htr|]. apply Hquiet.
  intros [_ (m & Hm & Hnot)]. apply Hnot.
  vm_compute in Hm. apply list_elem_of_singleton in Hm. subst m.
  vm_compute. left.
Defined.

(** X10.  A run on a parser without matches returns, and stores as
    [most_recent_match], the first input row that normalises: rows before
    it that fail are skipped; the match has the row's identifier and
    header texts and all its players; [is_new] is the answer of the
    detection over all matches of the run. *)
Theorem main_returns_the_first_row_that_normalises `{PyRuntime}
    (self : MatchPlayerParser) (w : World)
    (pre post : list RawRow.t) (row : RawRow.t) (m : MatchData.t) :
  matches self = [] →
  input_csv w = pre ++ row :: post →
  Forall (λ r, ∃ e, _parse_match_row r = Err e) pre →
  _parse_match_row row = Ok m →
  ∃ r, (main self w).1.1 = Some r
    ∧ most_recent_match (main self w).1.2 = Some r
    ∧ MostRecentMatch.match_id r = atom_str (RawRow.matchId row)
    ∧ MostRecentMatch.timestamp r = atom_str (RawRow.timestamp row)
    ∧ MostRecentMatch.time_ago r = atom_str (RawRow.timeAgo row)
    ∧ MostRecentMatch.players r = MatchData.get_all_players m
    ∧ (MostRecentMatch.is_new r = true ↔
       has_new_match (parsed (input_csv w)) (most_recent_csv w)).
Proof.
  intros Hself Hrows Hpre Hrow.
  assert (parsed (input_csv w) = m :: parsed post) as Hparsed.
  { rewrite Hrows, parsed_app, parsed_cons, Hrow.
    assert (parsed pre = []) as ->; [|done].
    clear Hrows. induction Hpre as [|r pre' [e He] _ IH]; [done|].
    by rewrite parsed_cons, He. }
  destruct ((main self w).1.1) as [r|] eqn:Hmain.
  - destruct (main_result self w r Hmain) as (Hstored & (m' & ms' & Hms & Hid & Hts & Hta & Hpl) & Hnew).
    rewrite Hself, Hparsed in Hms. simpl in Hms. injection Hms as <- <-.
    rewrite Hself in Hnew. simpl in Hnew.
    destruct (parse_match_row_header _ _ Hrow) as (Hid' & Hts' & Hta').
    exists r. split; [done|]. split; [done|].
    split; [congruence|]. split; [congruence|]. split; [congruence|].
    split; [done|exact Hnew].
  - exfalso. revert Hmain. rewrite main_unfold. cbv zeta.
    rewrite Hself, Hparsed. simpl. set (w1 := mkWorld _ _ _).
    destruct (check_for_new_matches_frame (set_matches (m :: parsed post) self) w1)
      as (Hms & _). simpl in Hms.
    unfold get_most_recent_match. by rewrite Hms.
Qed.

Lemma main_returns_the_first_row_that_normalises_witness :
  ∃ r, (@main cpython __init__
          (mkWorld [raw "m2" "{'c1': "; raw "m3" "{'c1': {'p2': {'SCORE': 4}}}"] None [])).1.1
       = Some r
    ∧ most_recent_match
        (@main cpython __init__
           (mkWorld [raw "m2" "{'c1': "; raw "m3" "{'c1': {'p2': {'SCORE': 4}}}"] None [])).1.2
      = Some r
    ∧ MostRecentMatch.match_id r = "m3"
    ∧ MostRecentMatch.timestamp r = "T"
    ∧ MostRecentMatch.time_ago r = "2h"
    ∧ MostRecentMatch.players r
      = MatchData.get_all_players
          (MatchData.mk "m3" "T" "2h" [(KStr "c1", [scorer "c1" "p2" 4])])
    ∧ (MostRecentMatch.is_new r = true ↔
       has_new_match (@parsed cpython (input_csv
           (mkWorld [raw "m2" "{'c1': "; raw "m3" "{'c1': {'p2': {'SCORE': 4}}}"] None [])))
         None).
Proof.
  apply (@main_returns_the_first_row_that_normalises cpython __init__
           (mkWorld [raw "m2" "{'c1': "; raw "m3" "{'c1': {'p2': {'SCORE': 4}}}"] None [])
           [raw "m2" "{'c1': "] [] (raw "m3" "{'c1': {'p2': {'SCORE': 4}}}")
           (MatchData.mk "m3" "T" "2h" [(KStr "c1", [scorer "c1" "p2" 4])])).
  - reflexivity.
  - reflexivity.
  - constructor; [|constructor]. eexists. vm_compute. reflexivity.
  - vm_compute. reflexivity.
Defined.



(** ** The two club lookups *)

Lemma filter_club_of_buckets (d : list (pyatom * list PlayerStats.t)) (c : pyatom) :
  NoDup d.*1 →
  (∀ c' ps p, (c', ps) ∈ d → p ∈ ps → PlayerStats.club_id p = c') →
  filter (λ p, PlayerStats.club_id p = c) (concat d.*2) = dict_get c [] d.
Proof.
  induction d as [|[k ps] d IH]; intros Hnd Hclub; [done|].
  apply NoDup_cons in Hnd as [Hk Hnd]. simpl in Hk.
  rewrite fmap_cons. cbn [concat snd]. rewrite filter_app.
  rewrite IH; [|done|by intros c' ps' p Hin; apply Hclub; right].
  assert (∀ p, p ∈ ps → PlayerStats.club_id p = k) as Hps
    by (by intros p; apply Hclub; left).
  unfold dict_get. simpl. destruct (decide (k = c)) as [->|Hne].
  - apply dict_lookup_None in Hk. rewrite Hk, app_nil_r.
    clear -Hps. induction ps as [|p ps IH]; [done|].
    rewrite filter_cons_True by (apply Hps; by left).
    f_equal. apply IH. intros q Hq. apply Hps. by right.
  - replace (filter (λ p, PlayerStats.club_id p = c) ps) with (@nil PlayerStats.t);
      [done|].
    clear -Hps Hne. induction ps as [|p ps IH]; [done|].
    rewrite filter_cons_False; [apply IH; intros q Hq; apply Hps; by right|].
    rewrite (Hps p) by by left. done.
Qed.

(** X12.  The two club lookups agree: for a parser whose first match was
    built by [_parse_match_row], [get_players_for_club] of the object
    that [get_most_recent_match] returns (a filter of the flat player
    list on [club_id]) gives, for every club, the list that
    [get_players_for_club] of the match itself reads from its dict. *)
Theorem most_recent_club_lookup_agrees `{PyRuntime}
    (self : MatchPlayerParser) (row : RawRow.t) (m : MatchData.t)
    (ms : list MatchData.t) :
  _parse_match_row row = Ok m →
  matches self = m :: ms →
  ∃ r, (get_most_recent_match self).1 = Some r
    ∧ ∀ c, MostRecentMatch.get_players_for_club r c
           = MatchData.get_players_for_club m c.
Proof.
  intros Hrow Hms. unfold get_most_recent_match. rewrite Hms. simpl.
  eexists. split; [done|]. intros c.
  unfold MostRecentMatch.get_players_for_club, MatchData.get_players_for_club.
  simpl. rewrite get_all_players_concat.
  apply filter_club_of_buckets.
  - by apply (parse_match_row_NoDup row).
  - intros c' ps p. by apply (parse_match_row_club_id row).
Qed.

Lemma most_recent_club_lookup_agrees_witness :
  ∃ r, (get_most_recent_match alice_parser).1 = Some r
    ∧ ∀ c, MostRecentMatch.get_players_for_club r c
           = MatchData.get_players_for_club alice_match c.
Proof.
  apply (@most_recent_club_lookup_agrees cpython alice_parser alice_row alice_match []).
  - vm_compute. reflexivity.
  - reflexivity.
Defined.

(** ** The exports *)

Lemma fmap_of_bind {A B C : Type} (f : B → C) (g : A → list B) (l : list A) :
  f <$> (l ≫= g) = l ≫= (λ x, f <$> g x).
Proof.
  induction l as [|x l IH]; [done|]. by rewrite !bind_cons, fmap_app, IH.
Qed.

Lemma current_matches_data_pairs (ms : list MatchData.t) :
  current_matches_data ms = (λ mp, row_of mp.1 mp.2) <$> match_players ms.
Proof.
  unfold current_matches_data, match_players.
  rewrite fmap_of_bind. apply list_bind_ext; [intros m|done].
  rewrite fmap_of_bind. apply list_bind_ext; [intros b|done].
  rewrite fmap_of_bind. by apply list_bind_ext.
Qed.

Lemma export_players_pairs (self : MatchPlayerParser) (path : string) :
  (export_players_to_csv self path).1
  = (λ mp, player_row mp.1 mp.2) <$> match_players (matches self).
Proof.
  unfold export_players_to_csv, match_players. simpl.
  rewrite fmap_of_bind. apply list_bind_ext; [intros m|done].
  rewrite fmap_of_bind. apply list_bind_ext; [intros b|done].
  rewrite fmap_of_bind. by apply list_bind_ext.
Qed.

Lemma match_players_length (ms : list MatchData.t) :
  length (match_players ms)
  = sum_list ((λ m, length (MatchData.get_all_players m)) <$> ms).
Proof.
  unfold match_players. induction ms as [|m ms IH]; [done|].
  rewrite bind_cons, length_app, IH, fmap_cons. cbn [sum_list sum_list_with id].
  f_equal. rewrite get_all_players_concat.
  generalize (MatchData.players_by_club m). clear IH. intros d.
  induction d as [|[c ps] d IHd]; [done|].
  rewrite bind_cons, fmap_cons, length_app, IHd. cbn [concat snd].
  rewrite length_app. f_equal.
  induction ps as [|p ps IHp]; [done|]. rewrite bind_cons. simpl. by rewrite IHp.
Qed.

(** X13.  The flat export and the snapshot rows are two views of the same
    players: [export_players_to_csv] hands [to_csv] one row per row that
    [update_most_recent_matches] composes, in the same order, and the two
    agree on every column they share; the number of rows is the total of
    [get_all_players] over the matches, and it is the number printed. *)
Theorem flat_export_matches_the_snapshot_rows
    (self : MatchPlayerParser) (output_filepath : string) :
  Forall2 same_shared_columns
    (export_players_to_csv self output_filepath).1
    (current_matches_data (matches self))
  ∧ length (export_players_to_csv self output_filepath).1
    = sum_list ((λ m, length (MatchData.get_all_players m)) <$> matches self)
  ∧ (export_players_to_csv self output_filepath).2
    = "✓ Exported "
      +:+ pretty (sum_list ((λ m, length (MatchData.get_all_players m)) <$> matches self))
      +:+ " player records to " +:+ output_filepath.
Proof.
  assert (length (export_players_to_csv self output_filepath).1
          = sum_list ((λ m, length (MatchData.get_all_players m)) <$> matches self))
    as Hlen by (by rewrite export_players_pairs, length_fmap, match_players_length).
  split; [|split; [done|]].
  - rewrite export_players_pairs, current_matches_data_pairs.
    apply Forall2_fmap, Forall_Forall2_diag, Forall_forall.
    intros [m p] _. by repeat split.
  - rewrite <- Hlen. done.
Qed.

Lemma json_clubs_fold (d : list (pyatom * list PlayerStats.t))
    (acc : list (pyatom * list JsonPlayer.t)) :
  NoDup (acc.*1 ++ d.*1) →
  fold_left (λ clubs (bucket : pyatom * list PlayerStats.t), dict_set bucket.1 (json_player <$> bucket.2) clubs) d acc
  = acc ++ ((λ bucket : pyatom * list PlayerStats.t, (bucket.1, json_player <$> bucket.2)) <$> d).
Proof.
  revert acc. induction d as [|[k ps] d IH]; intros acc Hnd; simpl.
  { by rewrite app_nil_r. }
  rewrite dict_set_fresh.
  - rewrite IH; [by rewrite <- app_assoc|].
    rewrite fmap_app. simpl. by rewrite <- app_assoc.
  - apply NoDup_app in Hnd as (_ & Hdisj & _). intros Hin.
    apply (Hdisj k Hin). simpl. by left.
Qed.

Lemma json_clubs_NoDup (d : list (pyatom * list PlayerStats.t)) :
  NoDup d.*1 →
  json_clubs d = (λ bucket : pyatom * list PlayerStats.t, (bucket.1, json_player <$> bucket.2)) <$> d.
Proof. intros Hnd. unfold json_clubs. by rewrite json_clubs_fold. Qed.

(** X14.  The document [export_matches_to_json] hands to [json.dump] loses
    nothing of a parser's matches when each was built by
    [_parse_match_row]: it has one entry per match, in order, with the
    match's three header texts, and the entry's [clubs] object has the
    match's clubs in their order, each with one record per player of the
    club, in order; the line printed gives the number of matches. *)
Theorem json_export_keeps_every_club_and_player `{PyRuntime}
    (self : MatchPlayerParser) (output_filepath : string) :
  Forall (λ m, ∃ row, _parse_match_row row = Ok m) (matches self) →
  Forall2 (λ j m,
      JsonMatch.match_id j = MatchData.match_id m
      ∧ JsonMatch.timestamp j = MatchData.timestamp m
      ∧ JsonMatch.time_ago j = MatchData.time_ago m
      ∧ JsonMatch.clubs j
        = (λ bucket : pyatom * list PlayerStats.t, (bucket.1, json_player <$> bucket.2))
          <$> MatchData.players_by_club m)
    (export_matches_to_json self output_filepath).1 (matches self)
  ∧ (export_matches_to_json self output_filepath).2
    = "✓ Exported "
      +:+ pretty (length (export_matches_to_json self output_filepath).1)
      +:+ " matches to " +:+ output_filepath.
Proof.
  intros Hms. unfold export_matches_to_json. simpl. split.
  - apply Forall2_fmap_l, Forall_Forall2_diag.
    eapply Forall_impl; [exact Hms|]. intros m [row Hrow].
    repeat split. simpl. apply json_clubs_NoDup. by apply (parse_match_row_NoDup row).
  - by rewrite length_fmap.
Qed.

Lemma json_export_keeps_every_club_and_player_witness :
  Forall2 (λ j m,
      JsonMatch.match_id j = MatchData.match_id m
      ∧ JsonMatch.timestamp j = MatchData.timestamp m
      ∧ JsonMatch.time_ago j = MatchData.time_ago m
      ∧ JsonMatch.clubs j
        = (λ bucket : pyatom * list PlayerStats.t, (bucket.1, json_player <$> bucket.2))
          <$> MatchData.players_by_club m)
    (export_matches_to_json alice_parser "matches_readable.json").1
    (matches alice_parser)
  ∧ (export_matches_to_json alice_parser "matches_readable.json").2
    = "✓ Exported "
      +:+ pretty (length (export_matches_to_json alice_parser "matches_readable.json").1)
      +:+ " matches to " +:+ "matches_readable.json".
Proof.
  apply (@json_export_keeps_every_club_and_player cpython alice_parser
           "matches_readable.json").
  constructor; [|constructor]. exists alice_row. vm_compute. reflexivity.
Defined.

(** ** The snapshot update, once more *)




(** X18.  The update compares [matchId] cells as they were loaded, without
    the [astype(str)] of the detection: a stored row whose [matchId] cell
    is an integer is never replaced, whatever comes in, since every
    incoming row carries its identifier as a string; yet detection takes a
    match with that identifier's text for a known one. *)
Theorem integer_match_id_rows_are_never_replaced
    (self : MatchPlayerParser) (w : World) (df : list Row.t) (r : Row.t) (z : Z) :
  matches self ≠ [] →
  most_recent_csv w = Some df →
  r ∈ drop_duplicates_last df →
  Row.matchId r = KInt z →
  (∃ merged, most_recent_csv (update_most_recent_matches self w) = Some merged
     ∧ r ∈ merged)
  ∧ ∀ m, MatchData.match_id m = atom_str (Row.matchId r) →
         MatchData.match_id m ∈ stored_match_ids df.
Proof.
  intros Hne Hdf Hr Hz. split.
  - rewrite (update_existing_file self w df) by done.
    eexists. split; [done|].
    rewrite drop_duplicates_last_app, elem_of_app. left.
    apply list_elem_of_filter. split; [|done].
    intros (r' & Hkey & Hin)%list_elem_of_fmap.
    apply current_matches_data_elem in Hin as (m & bucket & p & _ & _ & _ & ->).
    unfold Row.key in Hkey. rewrite Hz in Hkey. simpl in Hkey. congruence.
  - intros m ->. unfold stored_match_ids. apply list_elem_of_fmap.
    exists r. split; [done|].
    by apply (sublist_subseteq _ _ (drop_duplicates_last_sublist _)).
Qed.

Lemma integer_match_id_rows_are_never_replaced_witness :
  (∃ merged,
      most_recent_csv
        (update_most_recent_matches (@parse_csv cpython __init__ numeric_world).1.2
           numeric_world) = Some merged
      ∧ stored_numeric 42 "c1" "p1" 3 ∈ merged)
  ∧ ∀ m, MatchData.match_id m = atom_str (Row.matchId (stored_numeric 42 "c1" "p1" 3)) →
         MatchData.match_id m ∈ stored_match_ids [stored_numeric 42 "c1" "p1" 3].
Proof.
  apply (integer_match_id_rows_are_never_replaced
           (@parse_csv cpython __init__ numeric_world).1.2 numeric_world
           [stored_numeric 42 "c1" "p1" 3] (stored_numeric 42 "c1" "p1" 3) 42).
  - vm_compute. discriminate.
  - reflexivity.
  - vm_compute. left.
  - reflexivity.
Defined.
